(** * District Wi-Fi monitoring server: a shallow embedding

    The development follows the server sources:
    - [app.js]: the in-memory [wifiData] store, [updateMetricsFromDistricts],
      [simulateRealTimeData], [broadcastUpdate], the WebSocket connection
      handler, the session middlewares and the HTTP routes;
    - [database.js] (class [Database]): the account tables, the activity logs,
      the districts table and the security events;
    - [server.js]: the user routes of the single-database server
      ([POST /api/auth/register], [PUT] and [DELETE /api/users/:id]).

    Conventions of the embedding.
    - Integers held in JavaScript numbers (hotspot counts, row ids) are [Z];
      they are assumed to stay in the range where doubles are exact.
    - The one place where the code leaves the integers, the percentage
      [(activeHotspots / totalHotspots) * 100], is computed with binary64
      primitive floats, as JavaScript does.
    - A draw of [Math.random()] is modelled by its exact rational value and
      its products with the small integer constants of the code are taken
      exactly before [Math.floor]; the thresholds 0.05, 0.1, 0.3 and 0.8 are
      the rationals of those decimals.
    - [await]ed database calls may reject.  Failures that the tables do not
      explain (I/O errors, a locked file) come from an oracle [db_ok] indexed
      by the number of statements issued so far.
    - [bcrypt] is an external library: its hash and compare functions are
      fields of the environment. *)

From Stdlib Require Import ZArith QArith Qround List String Ascii Bool Lia.
From Stdlib Require Import Floats Uint63 DecimalString Permutation Sorted.
Import ListNotations.
Set Warnings "-register-all".
Open Scope string_scope.
Open Scope Z_scope.

(** ** JavaScript numbers *)

Module Js.

(** An integer-valued JavaScript number, as a double. *)
Definition to_float (z : Z) : float :=
  if 0 <=? z then PrimFloat.of_uint63 (Uint63.of_Z z)
  else PrimFloat.opp (PrimFloat.of_uint63 (Uint63.of_Z (- z))).

(** [Math.round]: the closest integer, ties towards +infinity, computed
    exactly from the mantissa and exponent of the double.  Infinities and
    NaN do not arise where it is used (the divisor is positive and the
    operands are counts); they are sent to 0. *)
Definition Math_round (x : float) : Z :=
  match Prim2SF x with
  | S754_finite s m e =>
      let n := if s then Z.neg m else Z.pos m in
      if 0 <=? e then n * 2 ^ e
      else (2 * n + 2 ^ (- e)) / 2 ^ (- e + 1)
  | _ => 0
  end.

(** [Math.floor] on the exact value of a draw expression. *)
Definition Math_floor (q : Q) : Z := Qfloor q.

Definition Math_max (a b : Z) : Z := Z.max a b.
Definition Math_min (a b : Z) : Z := Z.min a b.

(** [x < y] on draws. *)
Definition lt (x y : Q) : bool := negb (Qle_bool y x).

(** Truthiness of a string-valued request field: [undefined] and the empty
    string are falsy. *)
Definition truthy (v : option string) : bool :=
  match v with
  | Some s => negb (String.eqb s "")
  | None => false
  end.

End Js.

(** ** JSON values

    Messages are kept as JSON values; [JSON.stringify] is not modelled. *)

Inductive json : Type :=
| JNull
| JBool (b : bool)
| JNum (q : Q)
| JStr (s : string)
| JArr (l : list json)
| JObj (fields : list (string * json)).

Definition JInt (z : Z) : json := JNum (inject_Z z).

(** Property access [v.k] on a parsed value: [None] is [undefined]. *)
Fixpoint assoc (k : string) (fields : list (string * json)) : option json :=
  match fields with
  | [] => None
  | (k', v) :: rest => if String.eqb k' k then Some v else assoc k rest
  end.

(** ** Districts and the in-memory store *)

Module District.
Record t : Type := mk {
  id : Z;
  name : string;
  total_hotspots : Z;
  active_hotspots : Z;
  utilization : Z;
  status : string;
  last_ping : string
}.

Definition to_json (d : t) : json :=
  JObj [("id", JInt (id d)); ("name", JStr (name d));
        ("total_hotspots", JInt (total_hotspots d));
        ("active_hotspots", JInt (active_hotspots d));
        ("utilization", JInt (utilization d));
        ("status", JStr (status d));
        ("last_ping", JStr (last_ping d))].
End District.

Module WifiData.
Record t : Type := mk {
  totalHotspots : Z;
  activeHotspots : Z;
  utilization : Z;
  criticalDistricts : Z;
  districts : list District.t;
  lastUpdated : string
}.
End WifiData.

(** [updateMetricsFromDistricts()] of app.js; [now] stands for
    [new Date().toISOString()]. *)
Definition updateMetricsFromDistricts (now : string) (w : WifiData.t)
  : WifiData.t :=
  let ds := WifiData.districts w in
  let totalHotspots :=
    fold_left (fun sum district => sum + District.total_hotspots district) ds 0 in
  let activeHotspots :=
    fold_left (fun sum district => sum + District.active_hotspots district) ds 0 in
  let utilization :=
    if 0 <? totalHotspots
    then Js.Math_round
           (PrimFloat.mul
              (PrimFloat.div (Js.to_float activeHotspots) (Js.to_float totalHotspots))
              (Js.to_float 100))
    else 0 in
  let criticalDistricts :=
    Z.of_nat (List.length (filter (fun d => String.eqb (District.status d) "critical") ds)) in
  WifiData.mk totalHotspots activeHotspots utilization criticalDistricts ds now.

(** The sums and the count as the specification words them. *)
Definition sum_total (ds : list District.t) : Z :=
  fold_right Z.add 0 (map District.total_hotspots ds).

Definition sum_active (ds : list District.t) : Z :=
  fold_right Z.add 0 (map District.active_hotspots ds).

Definition count_critical (ds : list District.t) : nat :=
  count_occ string_dec (map District.status ds) "critical".

(** The aggregate utilization as the specification words it: 0 when the
    totals sum to 0, otherwise the exactly rounded percentage (ties up, as
    [Math.round] has them). *)
Definition spec_utilization (ds : list District.t) : Z :=
  if sum_total ds =? 0 then 0
  else Qfloor (inject_Z (100 * sum_active ds) / inject_Z (sum_total ds) + (1 # 2)).

(** ** The server state and the execution monad *)

Inductive sqlval : Type :=
| VNull
| VInt (n : Z)
| VText (s : string).

Definition sqlval_eqb (a b : sqlval) : bool :=
  match a, b with
  | VNull, VNull => true
  | VInt x, VInt y => x =? y
  | VText x, VText y => String.eqb x y
  | _, _ => false
  end.

(** A row of [users] or [admins].  The admin-only columns [department],
    [gov_id], [registration_id] and [status] stay [VNull] in [users].  A cell
    holds the value that was bound; column affinity is not modelled. *)
Module Account.
Record t : Type := mk {
  id : Z;
  fullname : sqlval;
  email : sqlval;
  username : sqlval;
  role : sqlval;
  password : sqlval;
  department : sqlval;
  gov_id : sqlval;
  registration_id : sqlval;
  status : sqlval;
  created_at : sqlval;
  is_active : sqlval;
  last_login : sqlval
}.
End Account.

(** A row of [user_activity_logs] or [admin_activity_logs]. *)
Module ActivityLog.
Record t : Type := mk {
  id : Z;
  user_id : sqlval;
  username : sqlval;
  action : string;
  timestamp : string;
  ip_address : sqlval
}.
End ActivityLog.

(** A row of [security_events]. *)
Module SecurityEvent.
Record t : Type := mk {
  id : Z;
  event_type : string;
  severity : string;
  device_id : sqlval;
  mac_address : sqlval;
  ip_address : sqlval;
  description : string;
  timestamp : string;
  resolved : Z;
  resolved_by : sqlval;
  resolved_at : sqlval
}.
End SecurityEvent.

(** A row of [wifi_metrics]. *)
Module Metrics.
Record t : Type := mk {
  id : Z;
  total_hotspots : Z;
  active_hotspots : Z;
  utilization : Z;
  critical_districts : Z;
  timestamp : string
}.
End Metrics.

(** A table with an [INTEGER PRIMARY KEY AUTOINCREMENT] id: its rows in
    insertion order and the last id handed out. *)
Record table (A : Type) : Type := mkTable {
  rows : list A;
  seq : Z
}.
Arguments mkTable {A} _ _.
Arguments rows {A} _.
Arguments seq {A} _.

Definition empty_table {A : Type} : table A := mkTable [] 0.

(** [readyState] of a WebSocket. *)
Inductive readyState : Type := CONNECTING | OPEN | CLOSING | CLOSED.

Definition readyState_eqb (a b : readyState) : bool :=
  match a, b with
  | CONNECTING, CONNECTING | OPEN, OPEN | CLOSING, CLOSING | CLOSED, CLOSED => true
  | _, _ => false
  end.

Module Client.
Record t : Type := mk {
  id : nat;
  state : readyState
}.
End Client.

(** The session object that [express-session] attaches to the requests of
    one browser; [VNull] and [None] stand for a property that is not set. *)
Module Session.
Record t : Type := mk {
  userId : sqlval;
  userRole : sqlval;
  username : sqlval;
  loginType : option string;
  loginAttempts : option Z
}.
Definition empty : t := mk VNull VNull VNull None None.
End Session.

(** What the process owns: the [wifiData] object, the four databases, the
    set [wss.clients], the messages handed to [send] so far (oldest first),
    the session of the browser being served, and the positions reached in
    the streams of the environment. *)
Record world : Type := mkWorld {
  wifiData : WifiData.t;
  users : table Account.t;
  admins : table Account.t;
  user_activity_logs : table ActivityLog.t;
  admin_activity_logs : table ActivityLog.t;
  districts : table District.t;
  wifi_metrics : table Metrics.t;
  security_events : table SecurityEvent.t;
  clients : list Client.t;
  outbox : list (nat * json);
  session : Session.t;
  draws : nat;
  statements : nat;
  hashes : nat
}.

(** What the process does not control. *)
Record env : Type := mkEnv {
  rnd : nat -> Q;
  db_ok : nat -> bool;
  now : string;
  current_timestamp : string;
  bcrypt_hash : string -> Z -> nat -> string;
  bcrypt_compare : string -> string -> bool
}.

Inductive error : Type :=
| SqliteError (msg : string)
| TypeError (msg : string)
| SyntaxError (msg : string).

(** [error.message]. *)
Definition message_of (e : error) : string :=
  match e with
  | SqliteError m | TypeError m | SyntaxError m => m
  end.

Inductive result (A : Type) : Type :=
| Ok (a : A)
| Throw (e : error).
Arguments Ok {A} _.
Arguments Throw {A} _.

(** A computation reads the environment and threads the world; what it
    wrote before throwing stays written. *)
Definition M (A : Type) : Type := env -> world -> result A * world.

Definition ret {A : Type} (a : A) : M A := fun _ w => (Ok a, w).

Definition bind {A B : Type} (m : M A) (k : A -> M B) : M B :=
  fun E w =>
    match m E w with
    | (Ok a, w1) => k a E w1
    | (Throw e, w1) => (Throw e, w1)
    end.

Definition throw {A : Type} (e : error) : M A := fun _ w => (Throw e, w).

Definition try_catch {A : Type} (m : M A) (handler : error -> M A) : M A :=
  fun E w =>
    match m E w with
    | (Ok a, w1) => (Ok a, w1)
    | (Throw e, w1) => handler e E w1
    end.

Definition get : M world := fun _ w => (Ok w, w).
Definition put (w : world) : M unit := fun _ _ => (Ok tt, w).
Definition modify (f : world -> world) : M unit := fun _ w => (Ok tt, f w).
Definition ask : M env := fun E w => (Ok E, w).

Declare Scope monad_scope.
Delimit Scope monad_scope with monad.
Notation "x <- m ;; k" := (bind m (fun x => k))
  (at level 61, m at next level, right associativity) : monad_scope.
Notation "m ;; k" := (bind m (fun _ => k))
  (at level 61, right associativity) : monad_scope.
Open Scope monad_scope.

Definition set_wifiData (x : WifiData.t) (w : world) : world :=
  mkWorld x (users w) (admins w) (user_activity_logs w)
    (admin_activity_logs w) (districts w) (wifi_metrics w) (security_events w)
    (clients w) (outbox w) (session w) (draws w) (statements w) (hashes w).

Definition set_users (x : table Account.t) (w : world) : world :=
  mkWorld (wifiData w) x (admins w) (user_activity_logs w)
    (admin_activity_logs w) (districts w) (wifi_metrics w) (security_events w)
    (clients w) (outbox w) (session w) (draws w) (statements w) (hashes w).

Definition set_admins (x : table Account.t) (w : world) : world :=
  mkWorld (wifiData w) (users w) x (user_activity_logs w)
    (admin_activity_logs w) (districts w) (wifi_metrics w) (security_events w)
    (clients w) (outbox w) (session w) (draws w) (statements w) (hashes w).

Definition set_user_activity_logs (x : table ActivityLog.t) (w : world) : world :=
  mkWorld (wifiData w) (users w) (admins w) x (admin_activity_logs w)
    (districts w) (wifi_metrics w) (security_events w) (clients w) (outbox w)
    (session w) (draws w) (statements w) (hashes w).

Definition set_admin_activity_logs (x : table ActivityLog.t) (w : world) : world :=
  mkWorld (wifiData w) (users w) (admins w) (user_activity_logs w) x
    (districts w) (wifi_metrics w) (security_events w) (clients w) (outbox w)
    (session w) (draws w) (statements w) (hashes w).

Definition set_districts (x : table District.t) (w : world) : world :=
  mkWorld (wifiData w) (users w) (admins w) (user_activity_logs w)
    (admin_activity_logs w) x (wifi_metrics w) (security_events w) (clients w)
    (outbox w) (session w) (draws w) (statements w) (hashes w).

Definition set_wifi_metrics (x : table Metrics.t) (w : world) : world :=
  mkWorld (wifiData w) (users w) (admins w) (user_activity_logs w)
    (admin_activity_logs w) (districts w) x (security_events w) (clients w)
    (outbox w) (session w) (draws w) (statements w) (hashes w).

Definition set_security_events (x : table SecurityEvent.t) (w : world) : world :=
  mkWorld (wifiData w) (users w) (admins w) (user_activity_logs w)
    (admin_activity_logs w) (districts w) (wifi_metrics w) x (clients w)
    (outbox w) (session w) (draws w) (statements w) (hashes w).

Definition set_clients (x : list Client.t) (w : world) : world :=
  mkWorld (wifiData w) (users w) (admins w) (user_activity_logs w)
    (admin_activity_logs w) (districts w) (wifi_metrics w) (security_events w)
    x (outbox w) (session w) (draws w) (statements w) (hashes w).

Definition set_outbox (x : list (nat * json)) (w : world) : world :=
  mkWorld (wifiData w) (users w) (admins w) (user_activity_logs w)
    (admin_activity_logs w) (districts w) (wifi_metrics w) (security_events w)
    (clients w) x (session w) (draws w) (statements w) (hashes w).

Definition set_session (x : Session.t) (w : world) : world :=
  mkWorld (wifiData w) (users w) (admins w) (user_activity_logs w)
    (admin_activity_logs w) (districts w) (wifi_metrics w) (security_events w)
    (clients w) (outbox w) x (draws w) (statements w) (hashes w).

Definition set_draws (x : nat) (w : world) : world :=
  mkWorld (wifiData w) (users w) (admins w) (user_activity_logs w)
    (admin_activity_logs w) (districts w) (wifi_metrics w) (security_events w)
    (clients w) (outbox w) (session w) x (statements w) (hashes w).

Definition set_statements (x : nat) (w : world) : world :=
  mkWorld (wifiData w) (users w) (admins w) (user_activity_logs w)
    (admin_activity_logs w) (districts w) (wifi_metrics w) (security_events w)
    (clients w) (outbox w) (session w) (draws w) x (hashes w).

Definition set_hashes (x : nat) (w : world) : world :=
  mkWorld (wifiData w) (users w) (admins w) (user_activity_logs w)
    (admin_activity_logs w) (districts w) (wifi_metrics w) (security_events w)
    (clients w) (outbox w) (session w) (draws w) (statements w) x.

(** [Math.random()]: the next draw of the stream. *)
Definition Math_random : M Q :=
  fun E w => (Ok (rnd E (draws w)), set_draws (S (draws w)) w).

(** Every statement sent to SQLite first passes the oracle: the callback
    receives [err] when the oracle says so. *)
Definition statement : M unit :=
  fun E w =>
    let w1 := set_statements (S (statements w)) w in
    if db_ok E (statements w) then (Ok tt, w1)
    else (Throw (SqliteError "SQLITE_ERROR"), w1).

(** [ws.send(message)] on client [c]. *)
Definition send (c : nat) (message : json) : M unit :=
  modify (fun w => set_outbox (outbox w ++ [(c, message)]) w).

(** ** The simulation tick (app.js, [simulateRealTimeData]) *)

Definition with_districts (ds : list District.t) (x : WifiData.t) : WifiData.t :=
  WifiData.mk (WifiData.totalHotspots x) (WifiData.activeHotspots x)
    (WifiData.utilization x) (WifiData.criticalDistricts x) ds
    (WifiData.lastUpdated x).

Fixpoint set_nth {A : Type} (i : nat) (x : A) (l : list A) : list A :=
  match l, i with
  | [], _ => []
  | _ :: rest, O => x :: rest
  | y :: rest, S j => y :: set_nth j x rest
  end.

Fixpoint forEach {A : Type} (l : list A) (f : A -> M unit) : M unit :=
  match l with
  | [] => ret tt
  | x :: rest => f x ;; forEach rest f
  end.

(** The three values the loop body computes for one district, each from
    one draw. *)
Definition newActiveHotspots (district : District.t) (r : Q) : Z :=
  Js.Math_max 0
    (Js.Math_min (District.total_hotspots district)
       (District.active_hotspots district + Js.Math_floor (r * 20) - 10)).

Definition newUtilization (district : District.t) (r : Q) : Z :=
  Js.Math_max 0
    (Js.Math_min 100
       (District.utilization district + Js.Math_floor (r * 8) - 4)).

Definition newStatus (status : string) (rand : Q) : string :=
  if Js.lt rand (5 # 100) then
    if String.eqb status "critical" then "warning" else "critical"
  else if Js.lt rand (1 # 10) then
    if String.eqb status "normal" then "warning" else "normal"
  else status.

(** [database.updateDistrict(districtId, updates)]; the only caller passes
    the keys [active_hotspots], [utilization] and [status].  Resolves to the
    number of rows changed. *)
Definition updateDistrict (districtId active_hotspots utilization : Z)
  (status : string) : M Z :=
  statement ;;
  E <- ask ;;
  w <- get ;;
  let hit (row : District.t) := District.id row =? districtId in
  let upd (row : District.t) :=
    if hit row then
      District.mk (District.id row) (District.name row)
        (District.total_hotspots row) active_hotspots utilization status
        (current_timestamp E)
    else row in
  let t := districts w in
  put (set_districts (mkTable (map upd (rows t)) (seq t)) w) ;;
  ret (Z.of_nat (List.length (filter hit (rows t)))).

(** [database.saveMetrics(metrics)]: resolves to the new row id. *)
Definition saveMetrics (totalHotspots activeHotspots utilization
  criticalDistricts : Z) : M Z :=
  statement ;;
  E <- ask ;;
  w <- get ;;
  let t := wifi_metrics w in
  let lastID := seq t + 1 in
  let row := Metrics.mk lastID totalHotspots activeHotspots utilization
               criticalDistricts (current_timestamp E) in
  put (set_wifi_metrics (mkTable (rows t ++ [row]) lastID) w) ;;
  ret lastID.

(** The envelope [broadcastUpdate] builds. *)
Definition data_update_broadcast (x : WifiData.t) : json :=
  JObj [("type", JStr "data_update");
        ("data",
         JObj [("districts", JArr (map District.to_json (WifiData.districts x)));
               ("totalHotspots", JInt (WifiData.totalHotspots x));
               ("activeHotspots", JInt (WifiData.activeHotspots x));
               ("utilization", JInt (WifiData.utilization x));
               ("criticalDistricts", JInt (WifiData.criticalDistricts x))])].

Definition broadcastUpdate : M unit :=
  w <- get ;;
  let message := data_update_broadcast (wifiData w) in
  forEach (clients w)
    (fun client =>
       if readyState_eqb (Client.state client) OPEN
       then send (Client.id client) message
       else ret tt).

(** One iteration of [for (let district of wifiData.districts)]; [i] is the
    position of [district] in the array. *)
Definition simulate_district (i : nat) (district : District.t) : M unit :=
  r1 <- Math_random ;;
  let newActive := newActiveHotspots district r1 in
  r2 <- Math_random ;;
  let newUtil := newUtilization district r2 in
  rand <- Math_random ;;
  let newStat := newStatus (District.status district) rand in
  _ <- updateDistrict (District.id district) newActive newUtil newStat ;;
  E <- ask ;;
  modify (fun w =>
    let x := wifiData w in
    let district' :=
      District.mk (District.id district) (District.name district)
        (District.total_hotspots district) newActive newUtil newStat (now E) in
    set_wifiData (with_districts (set_nth i district' (WifiData.districts x)) x) w).

Fixpoint for_of_districts (i : nat) (todo : list District.t) : M unit :=
  match todo with
  | [] => ret tt
  | district :: rest =>
      simulate_district i district ;; for_of_districts (S i) rest
  end.

(** "Update main metrics": the three statements ahead of the loop. *)
Definition update_main_metrics : M unit :=
  r <- Math_random ;;
  modify (fun w =>
    let x := wifiData w in
    set_wifiData
      (WifiData.mk (WifiData.totalHotspots x + (Js.Math_floor (r * 20) - 10))
         (WifiData.activeHotspots x) (WifiData.utilization x)
         (WifiData.criticalDistricts x) (WifiData.districts x)
         (WifiData.lastUpdated x)) w) ;;
  r <- Math_random ;;
  modify (fun w =>
    let x := wifiData w in
    set_wifiData
      (WifiData.mk (WifiData.totalHotspots x)
         (WifiData.activeHotspots x + (Js.Math_floor (r * 30) - 15))
         (WifiData.utilization x)
         (WifiData.criticalDistricts x) (WifiData.districts x)
         (WifiData.lastUpdated x)) w) ;;
  r <- Math_random ;;
  modify (fun w =>
    let x := wifiData w in
    set_wifiData
      (WifiData.mk (WifiData.totalHotspots x) (WifiData.activeHotspots x)
         (Js.Math_max 0
            (Js.Math_min 100
               (WifiData.utilization x + Js.Math_floor (r * 6) - 3)))
         (WifiData.criticalDistricts x) (WifiData.districts x)
         (WifiData.lastUpdated x)) w).

(** "Recalculate metrics", "Save metrics to database", "Broadcast to all
    connected clients": the statements after the loop. *)
Definition recalculate_save_broadcast : M unit :=
  E <- ask ;;
  modify (fun w => set_wifiData (updateMetricsFromDistricts (now E) (wifiData w)) w) ;;
  w <- get ;;
  let x := wifiData w in
  _ <- saveMetrics (WifiData.totalHotspots x) (WifiData.activeHotspots x)
         (WifiData.utilization x) (WifiData.criticalDistricts x) ;;
  broadcastUpdate.

(** [simulateRealTimeData()]: the body of [try], and the [catch] that only
    logs. *)
Definition simulateRealTimeData : M unit :=
  try_catch
    (update_main_metrics ;;
     w <- get ;;
     for_of_districts 0 (WifiData.districts (wifiData w)) ;;
     recalculate_save_broadcast)
    (fun _ => ret tt).

(** ** The WebSocket channel (app.js, [wss.on('connection')]) *)

Definition hotspot (id : Z) (name : string) (lat lng : Q) (status : string)
  (connections utilization : Z) (address : string) : json :=
  JObj [("id", JInt id); ("name", JStr name); ("lat", JNum lat);
        ("lng", JNum lng); ("status", JStr status);
        ("connections", JInt connections);
        ("utilization", JInt utilization); ("address", JStr address)].

Definition generateSampleHotspots : M json :=
  c1 <- Math_random ;; u1 <- Math_random ;;
  c2 <- Math_random ;; u2 <- Math_random ;;
  s3 <- Math_random ;; c3 <- Math_random ;; u3 <- Math_random ;;
  s4 <- Math_random ;; c4 <- Math_random ;; z4 <- Math_random ;;
  u4 <- (if Js.lt (8 # 10) z4 then ret 0
         else r <- Math_random ;; ret (Js.Math_floor (r * 15) + 40)) ;;
  c5 <- Math_random ;; u5 <- Math_random ;;
  ret (JArr
    [hotspot 1 "Times Square Hotspot" (407580 # 10000) (-739855 # 10000)
       "online" (Js.Math_floor (c1 * 50) + 20) (Js.Math_floor (u1 * 30) + 60)
       "Times Square, NYC";
     hotspot 2 "Central Park WiFi" (407829 # 10000) (-739654 # 10000)
       "online" (Js.Math_floor (c2 * 40) + 15) (Js.Math_floor (u2 * 25) + 55)
       "Central Park, NYC";
     hotspot 3 "Brooklyn Bridge Hotspot" (407061 # 10000) (-739969 # 10000)
       (if Js.lt (3 # 10) s3 then "warning" else "online")
       (Js.Math_floor (c3 * 60) + 30) (Js.Math_floor (u3 * 20) + 70)
       "Brooklyn Bridge, NYC";
     hotspot 4 "Wall Street Zone" (407074 # 10000) (-740113 # 10000)
       (if Js.lt (8 # 10) s4 then "offline" else "online")
       (Js.Math_floor (c4 * 10)) u4
       "Wall Street, NYC";
     hotspot 5 "Union Square Hub" (407359 # 10000) (-739911 # 10000)
       "online" (Js.Math_floor (c5 * 45) + 25) (Js.Math_floor (u5 * 35) + 50)
       "Union Square, NYC"]).

Definition initial_data_message (hotspots : json) (x : WifiData.t) : json :=
  JObj [("type", JStr "initial_data");
        ("data",
         JObj [("hotspots", hotspots);
               ("districts", JArr (map District.to_json (WifiData.districts x)));
               ("totalHotspots", JInt (WifiData.totalHotspots x));
               ("activeHotspots", JInt (WifiData.activeHotspots x));
               ("utilization", JInt (WifiData.utilization x))])].

Definition data_update_reply (x : WifiData.t) : json :=
  JObj [("type", JStr "data_update");
        ("data",
         JObj [("districts", JArr (map District.to_json (WifiData.districts x)));
               ("totalHotspots", JInt (WifiData.totalHotspots x));
               ("activeHotspots", JInt (WifiData.activeHotspots x));
               ("utilization", JInt (WifiData.utilization x))])].

(** The callback of [wss.on('connection')], up to the registration of the
    socket's own listeners. *)
Definition on_connection (ws : nat) : M unit :=
  hotspots <- generateSampleHotspots ;;
  w <- get ;;
  send ws (initial_data_message hotspots (wifiData w)).

(** [data.type] on the value [JSON.parse] returned: reading a property of
    [null] throws; a parsed object holds each key once. *)
Definition get_type (data : json) : M (option json) :=
  match data with
  | JNull => throw (TypeError "Cannot read properties of null")
  | JObj fields => ret (assoc "type" fields)
  | _ => ret None
  end.

(** The callback of [ws.on('message')]; [parsed] is what [JSON.parse]
    makes of the frame, [None] when it throws. *)
Definition on_message (ws : nat) (parsed : option json) : M unit :=
  try_catch
    (data <- match parsed with
             | Some v => ret v
             | None => throw (SyntaxError "Unexpected token in JSON")
             end ;;
     ty <- get_type data ;;
     match ty with
     | Some (JStr s) =>
         if String.eqb s "request_update"
         then w <- get ;; send ws (data_update_reply (wifiData w))
         else ret tt
     | _ => ret tt
     end)
    (fun _ => ret tt).

(** What can happen on the channel: the [ws] library accepts a socket, puts
    it in [wss.clients] and emits ['connection']; a client frame arrives; the
    interval timer fires. *)
Inductive ws_event : Type :=
| Connection (ws : nat)
| Message (ws : nat) (parsed : option json)
| Timer.

Definition ws_handle (ev : ws_event) : M unit :=
  match ev with
  | Connection ws =>
      modify (fun w => set_clients (clients w ++ [Client.mk ws OPEN]) w) ;;
      on_connection ws
  | Message ws parsed => on_message ws parsed
  | Timer => simulateRealTimeData
  end.


(** ** Strings

    Strings are byte strings; [trim] removes the ASCII white space and
    [toLowerCase] maps the ASCII capitals. *)

Definition is_space (c : ascii) : bool :=
  let n := nat_of_ascii c in
  ((9 <=? n)%nat && (n <=? 13)%nat) || (n =? 32)%nat.

Fixpoint trimStart (s : string) : string :=
  match s with
  | String c rest => if is_space c then trimStart rest else s
  | EmptyString => EmptyString
  end.

Fixpoint rev_append_string (s acc : string) : string :=
  match s with
  | String c rest => rev_append_string rest (String c acc)
  | EmptyString => acc
  end.

Definition rev_string (s : string) : string := rev_append_string s EmptyString.

Definition trim (s : string) : string :=
  rev_string (trimStart (rev_string (trimStart s))).

Fixpoint remove_chars (bad : ascii -> bool) (s : string) : string :=
  match s with
  | String c rest =>
      if bad c then remove_chars bad rest else String c (remove_chars bad rest)
  | EmptyString => EmptyString
  end.

(** The character class of the sanitizing regular expression: less-than,
    greater-than, double quote, single quote and ampersand. *)
Definition markup_char (c : ascii) : bool :=
  let n := nat_of_ascii c in
  (n =? 60)%nat || (n =? 62)%nat || (n =? 34)%nat || (n =? 39)%nat || (n =? 38)%nat.

(** [s.trim().replace(re, '')], [re] being the global regular expression
    over that class. *)
Definition sanitize (s : string) : string := remove_chars markup_char (trim s).

Definition lower_char (c : ascii) : ascii :=
  let n := nat_of_ascii c in
  if ((65 <=? n)%nat && (n <=? 90)%nat) then ascii_of_nat (n + 32) else c.

Fixpoint toLowerCase (s : string) : string :=
  match s with
  | String c rest => String (lower_char c) (toLowerCase rest)
  | EmptyString => EmptyString
  end.

(** ** The account tables (database.js) *)

Definition is_admin (userType : string) : bool := String.eqb userType "admin".

(** [userType === 'admin' ? this.adminDb : this.userDb], with the table of
    that database. *)
Definition accounts (userType : string) (w : world) : table Account.t :=
  if is_admin userType then admins w else users w.

Definition set_accounts (userType : string) (t : table Account.t) (w : world)
  : world :=
  if is_admin userType then set_admins t w else set_users t w.

Definition not_null (v : sqlval) : bool := negb (sqlval_eqb v VNull).

(** A [UNIQUE] column accepts [v] next to the rows [others]: NULLs never
    collide. *)
Definition unique_among (col : Account.t -> sqlval) (v : sqlval)
  (others : list Account.t) : bool :=
  match v with
  | VNull => true
  | _ => forallb (fun r => negb (sqlval_eqb (col r) v)) others
  end.

(** The constraints that the [CREATE TABLE] statements of [createTables] put
    on a row of [users] (or of [admins], which adds [gov_id TEXT UNIQUE]). *)
Definition not_null_ok (row : Account.t) : bool :=
  not_null (Account.fullname row)
  && not_null (Account.email row)
  && not_null (Account.username row)
  && not_null (Account.role row)
  && not_null (Account.password row).

Definition unique_ok (admin : bool) (row : Account.t)
  (others : list Account.t) : bool :=
  forallb (fun r => negb (Account.id r =? Account.id row)) others
  && unique_among Account.email (Account.email row) others
  && unique_among Account.username (Account.username row) others
  && (if admin then unique_among Account.gov_id (Account.gov_id row) others
      else true).

Definition constraints_ok (admin : bool) (row : Account.t)
  (others : list Account.t) : bool :=
  not_null_ok row && unique_ok admin row others.

(** [INSERT INTO users/admins]: the row gets the next id; a violated
    constraint rejects the statement and leaves the table as it was. *)
Definition insert_account (userType : string) (mk_row : Z -> Account.t)
  : M Z :=
  statement ;;
  w <- get ;;
  let t := accounts userType w in
  let lastID := seq t + 1 in
  let row := mk_row lastID in
  if negb (not_null_ok row) then
    throw (SqliteError "SQLITE_CONSTRAINT: NOT NULL constraint failed")
  else if negb (unique_ok (is_admin userType) row (rows t)) then
    throw (SqliteError "SQLITE_CONSTRAINT: UNIQUE constraint failed")
  else
    put (set_accounts userType (mkTable (rows t ++ [row]) lastID) w) ;;
    ret lastID.

(** [bcrypt.hashSync(password, rounds)] and [bcrypt.hash]: each call salts
    afresh. *)
Definition bcrypt_hashSync (password : string) (rounds : Z) : M string :=
  fun E w => (Ok (bcrypt_hash E password rounds (hashes w)),
              set_hashes (S (hashes w)) w).

(** [userData.role || userType]. *)
Definition or_default (v : option string) (d : string) : string :=
  if Js.truthy v then match v with Some s => s | None => d end else d.

(** [createUser(userData, userType = 'user')]; resolves to an object whose
    [id] is the new row id. *)
Definition createUser (fullname email username : string) (role : option string)
  (password : string) (userType : string) : M Z :=
  hashedPassword <- bcrypt_hashSync password 10 ;;
  E <- ask ;;
  insert_account userType
    (fun id =>
       Account.mk id (VText fullname) (VText email) (VText username)
         (VText (or_default role userType)) (VText hashedPassword)
         VNull VNull VNull
         (if is_admin userType then VText "active" else VNull)
         (VText (current_timestamp E)) (VInt 1) VNull).

(** [createAdmin(adminData)]. *)
Definition createAdmin (fullname email username role password : string)
  (department govId registrationId : string) (status : option string)
  (isActive : bool) : M Z :=
  hashedPassword <- bcrypt_hashSync password 10 ;;
  E <- ask ;;
  insert_account "admin"
    (fun id =>
       Account.mk id (VText fullname) (VText email) (VText username)
         (VText role) (VText hashedPassword)
         (VText department) (VText govId) (VText registrationId)
         (VText (or_default status "pending_verification"))
         (VText (now E)) (VInt (if isActive then 1 else 0)) VNull).

(** [seedInitialData()], up to the call of [initializeDistricts]: the
    [INSERT OR IGNORE] of the default administrator, which a constraint
    silently stops. *)
Definition seedInitialData : M unit :=
  hashedAdminPassword <- bcrypt_hashSync "admin123" 10 ;;
  try_catch
    (_ <- (E <- ask ;;
           insert_account "admin"
             (fun id =>
                Account.mk id (VText "System Administrator")
                  (VText "admin@wifi-monitor.com") (VText "admin") (VText "admin")
                  (VText hashedAdminPassword) VNull VNull VNull (VText "active")
                  (VText (current_timestamp E)) (VInt 1) VNull)) ;;
     ret tt)
    (fun e => match e with
              | SqliteError msg =>
                  if String.prefix "SQLITE_CONSTRAINT" msg then ret tt
                  else throw e
              | _ => throw e
              end).

(** The [WHERE] clause of [authenticateUser]. *)
Definition login_candidate (userType username : string) (row : Account.t)
  : bool :=
  sqlval_eqb (Account.username row) (VText username)
  && (sqlval_eqb (Account.is_active row) (VInt 1)
      || (is_admin userType
          && sqlval_eqb (Account.status row) (VText "pending_verification"))).

Definition set_last_login (v : sqlval) (row : Account.t) : Account.t :=
  Account.mk (Account.id row) (Account.fullname row) (Account.email row)
    (Account.username row) (Account.role row) (Account.password row)
    (Account.department row) (Account.gov_id row) (Account.registration_id row)
    (Account.status row) (Account.created_at row) (Account.is_active row) v.

(** [authenticateUser(username, password, userType = 'user')]: the row the
    [SELECT] returned when the password matches it, [null] otherwise.  The
    [UPDATE] of [last_login] is sent without a callback: its failure is not
    reported to the caller. *)
Definition authenticateUser (username password userType : string)
  : M (option Account.t) :=
  statement ;;
  w <- get ;;
  match find (login_candidate userType username) (rows (accounts userType w)) with
  | None => ret None
  | Some row =>
      E <- ask ;;
      let isValid :=
        match Account.password row with
        | VText h => bcrypt_compare E password h
        | _ => false
        end in
      if isValid then
        try_catch
          (statement ;;
           w <- get ;;
           let t := accounts userType w in
           let upd (r : Account.t) :=
             if Account.id r =? Account.id row
             then set_last_login (VText (current_timestamp E)) r else r in
           put (set_accounts userType (mkTable (map upd (rows t)) (seq t)) w))
          (fun _ => ret tt) ;;
        ret (Some row)
      else ret None
  end.

(** The columns of [users] and of [admins], as [createTables] declares
    them. *)
Definition users_columns : list string :=
  ["id"; "fullname"; "email"; "username"; "role"; "password"; "created_at";
   "is_active"; "last_login"].

Definition admins_columns : list string :=
  ["id"; "fullname"; "email"; "username"; "role"; "password"; "department";
   "gov_id"; "registration_id"; "status"; "created_at"; "is_active";
   "last_login"].

(** The keys of [updates] go into the SQL text as they are; the model
    covers the keys that spell a column of the schema, every other key is an
    unknown column, which rejects the statement. *)
Definition is_column (admin : bool) (key : string) : bool :=
  existsb (String.eqb key) (if admin then admins_columns else users_columns).

(** One assignment [key = ?] on a row; [None] is a datatype mismatch on the
    integer primary key. *)
Definition set_column (key : string) (v : sqlval) (r : Account.t)
  : option Account.t :=
  let '(Account.mk id fullname email username role password department gov_id
          registration_id status created_at is_active last_login) := r in
  if String.eqb key "id" then
    match v with
    | VInt n => Some (Account.mk n fullname email username role password
                        department gov_id registration_id status created_at
                        is_active last_login)
    | _ => None
    end
  else if String.eqb key "fullname" then
    Some (Account.mk id v email username role password department gov_id
            registration_id status created_at is_active last_login)
  else if String.eqb key "email" then
    Some (Account.mk id fullname v username role password department gov_id
            registration_id status created_at is_active last_login)
  else if String.eqb key "username" then
    Some (Account.mk id fullname email v role password department gov_id
            registration_id status created_at is_active last_login)
  else if String.eqb key "role" then
    Some (Account.mk id fullname email username v password department gov_id
            registration_id status created_at is_active last_login)
  else if String.eqb key "password" then
    Some (Account.mk id fullname email username role v department gov_id
            registration_id status created_at is_active last_login)
  else if String.eqb key "department" then
    Some (Account.mk id fullname email username role password v gov_id
            registration_id status created_at is_active last_login)
  else if String.eqb key "gov_id" then
    Some (Account.mk id fullname email username role password department v
            registration_id status created_at is_active last_login)
  else if String.eqb key "registration_id" then
    Some (Account.mk id fullname email username role password department gov_id
            v status created_at is_active last_login)
  else if String.eqb key "status" then
    Some (Account.mk id fullname email username role password department gov_id
            registration_id v created_at is_active last_login)
  else if String.eqb key "created_at" then
    Some (Account.mk id fullname email username role password department gov_id
            registration_id status v is_active last_login)
  else if String.eqb key "is_active" then
    Some (Account.mk id fullname email username role password department gov_id
            registration_id status created_at v last_login)
  else if String.eqb key "last_login" then
    Some (Account.mk id fullname email username role password department gov_id
            registration_id status created_at is_active v)
  else None.

Fixpoint apply_updates (updates : list (string * sqlval)) (r : Account.t)
  : option Account.t :=
  match updates with
  | [] => Some r
  | (key, v) :: rest =>
      match set_column key v r with
      | Some r' => apply_updates rest r'
      | None => None
      end
  end.

(** The rows after an [UPDATE ... WHERE id = ?]: [None] when a row that
    matches cannot take the new values (datatype mismatch, violated
    constraint). *)
Fixpoint update_rows (admin : bool) (userId : Z)
  (updates : list (string * sqlval)) (before after : list Account.t)
  : option (list Account.t) :=
  match after with
  | [] => Some (rev before)
  | r :: rest =>
      if Account.id r =? userId then
        match apply_updates updates r with
        | Some r' =>
            if constraints_ok admin r' (rev before ++ rest)
            then update_rows admin userId updates (r' :: before) rest
            else None
        | None => None
        end
      else update_rows admin userId updates (r :: before) rest
  end.

(** [updateUser(userId, updates, userType = 'user')]: resolves to the number
    of rows changed. *)
Definition updateUser (userId : Z) (updates : list (string * sqlval))
  (userType : string) : M Z :=
  statement ;;
  w <- get ;;
  let t := accounts userType w in
  let admin := is_admin userType in
  match updates with
  | [] => throw (SqliteError "SQLITE_ERROR: syntax error")
  | _ :: _ =>
      if forallb (fun kv => is_column admin (fst kv)) updates then
        match update_rows admin userId updates [] (rows t) with
        | Some rows' =>
            put (set_accounts userType (mkTable rows' (seq t)) w) ;;
            ret (Z.of_nat (List.length
                   (filter (fun r => Account.id r =? userId) (rows t))))
        | None => throw (SqliteError "SQLITE_CONSTRAINT")
        end
      else throw (SqliteError "SQLITE_ERROR: no such column")
  end.

(** [updateAdmin(userId, updates)], "alias for updateUser". *)
Definition updateAdmin (userId : Z) (updates : list (string * sqlval)) : M Z :=
  updateUser userId updates "admin".

(** [deleteUser(userId, userType = 'user')]: [DELETE FROM users/admins WHERE
    id = ?]; resolves to the number of rows removed. *)
Definition deleteUser (userId : Z) (userType : string) : M Z :=
  statement ;;
  w <- get ;;
  let t := accounts userType w in
  put (set_accounts userType
         (mkTable (filter (fun r => negb (Account.id r =? userId)) (rows t))
            (seq t)) w) ;;
  ret (Z.of_nat (List.length (filter (fun r => Account.id r =? userId) (rows t)))).

(** [logActivity(userId, username, action, ipAddress = null, userType =
    'user')]. *)
Definition logActivity (userId username : sqlval) (action : string)
  (ipAddress : sqlval) (userType : string) : M Z :=
  statement ;;
  E <- ask ;;
  w <- get ;;
  let t := if is_admin userType then admin_activity_logs w
           else user_activity_logs w in
  let lastID := seq t + 1 in
  let row := ActivityLog.mk lastID userId username action
               (current_timestamp E) ipAddress in
  let t' := mkTable (rows t ++ [row]) lastID in
  put (if is_admin userType then set_admin_activity_logs t' w
       else set_user_activity_logs t' w) ;;
  ret lastID.

(** [createSecurityEvent(eventData)]. *)
Definition createSecurityEvent (event_type severity : string)
  (device_id mac_address ip_address : sqlval) (description : string) : M Z :=
  statement ;;
  E <- ask ;;
  w <- get ;;
  let t := security_events w in
  let lastID := seq t + 1 in
  let row := SecurityEvent.mk lastID event_type severity device_id mac_address
               ip_address description (current_timestamp E) 0 VNull VNull in
  put (set_security_events (mkTable (rows t ++ [row]) lastID) w) ;;
  ret lastID.

(** [database.getUserByUsername] and [database.getUserByEmail], which the
    registration routes of app.js call: class [Database] declares neither,
    so the property is [undefined] and the call throws a [TypeError]. *)
Definition getUserByUsername (username : string) : M (option Account.t) :=
  throw (TypeError "database.getUserByUsername is not a function").

Definition getUserByEmail (email : string) : M (option Account.t) :=
  throw (TypeError "database.getUserByEmail is not a function").

(** ** Requests, responses and the session middlewares (app.js) *)

Record request : Type := mkRequest {
  body : list (string * json);
  ip : string;
  params_id : Z
}.

(** A body field that the authentication routes destructure.  These fields
    are strings on the wire; a field that is absent or [null] is not set. *)
Definition string_field (req : request) (k : string) : option string :=
  match assoc k (body req) with
  | Some (JStr s) => Some s
  | _ => None
  end.

Definition unwrap (v : option string) : string :=
  match v with Some s => s | None => "" end.

Inductive payload : Type :=
| Render (view : string) (locals : option (WifiData.t * string))
| Json (j : json)
| Send (text : string)
| SendFile (file : string)
| Redirect (location : string).

Record response : Type := mkResponse {
  statusCode : Z;
  payload_of : payload
}.

Definition error_json (code : Z) (msg : string) : response :=
  mkResponse code (Json (JObj [("error", JStr msg)])).

Definition json_of_sqlval (v : sqlval) : json :=
  match v with
  | VNull => JNull
  | VInt n => JInt n
  | VText s => JStr s
  end.

(** Truthiness of a session property. *)
Definition truthy_val (v : sqlval) : bool :=
  match v with
  | VNull => false
  | VInt n => negb (n =? 0)
  | VText s => negb (String.eqb s "")
  end.

Definition middleware : Type := request -> M response -> M response.

(** [requireAuth(req, res, next)]. *)
Definition requireAuth : middleware :=
  fun req next =>
    w <- get ;;
    if truthy_val (Session.userId (session w)) then next
    else ret (mkResponse 302 (Redirect "/login")).

(** [requireRole(role)]. *)
Definition requireRole (role : string) : middleware :=
  fun req next =>
    w <- get ;;
    if sqlval_eqb (Session.userRole (session w)) (VText role) then next
    else ret (mkResponse 403 (Send "Access denied")).

(** The page routes as app.js registers them with [app.get(path, ...)]: the
    path, the middlewares listed before the callback, the callback.  The
    locals of a rendered view are [{ wifiData, userRole }]. *)
Record route : Type := mkRoute {
  path : string;
  middlewares : list middleware;
  callback : request -> M response
}.

Definition render (view userRole : string) : request -> M response :=
  fun _ => w <- get ;; ret (mkResponse 200 (Render view (Some (wifiData w, userRole)))).

Definition render_login : request -> M response :=
  fun _ => ret (mkResponse 200 (Render "login" None)).

Definition page_routes : list route :=
  [ mkRoute "/" [] render_login;
    mkRoute "/login" [] render_login;
    mkRoute "/signup" []
      (fun _ => ret (mkResponse 200 (Render "signup" None)));
    mkRoute "/monitor" []
      (fun _ => ret (mkResponse 200 (SendFile "realtime-monitor.html")));
    mkRoute "/dashboard" [] (render "dashboard" "user");
    mkRoute "/admin" [] (render "admin" "admin");
    mkRoute "/viewer" [] (render "viewer" "viewer");
    mkRoute "/devices" []
      (fun _ => ret (mkResponse 200 (SendFile "devices.html"))) ].

Fixpoint run_middlewares (ms : list middleware) (req : request)
  (final : M response) : M response :=
  match ms with
  | [] => final
  | m :: rest => m req (run_middlewares rest req final)
  end.

(** A [GET] of a page: the first route whose path matches; [None] when the
    path is none of the pages. *)
Definition get_page (p : string) (req : request) : M (option response) :=
  match find (fun r => String.eqb (path r) p) page_routes with
  | Some r =>
      resp <- run_middlewares (middlewares r) req (callback r req) ;;
      ret (Some resp)
  | None => ret None
  end.

(** ** The authentication routes of app.js

    The callbacks are modelled; the rate limiters that precede them may
    answer 429 on their own. *)

Definition set_session_field (f : Session.t -> Session.t) : M unit :=
  modify (fun w => set_session (f (session w)) w).

(** [app.post('/auth/login', authLimiter, async (req, res) => ...)]. *)
Definition auth_login (req : request) : M response :=
  let username := string_field req "username" in
  let password := string_field req "password" in
  let loginType :=
    match string_field req "loginType" with Some s => s | None => "user" end in
  if negb (Js.truthy username) || negb (Js.truthy password) then
    ret (error_json 400 "Username and password are required")
  else
    let sanitizedUsername := sanitize (unwrap username) in
    try_catch
      (user <- authenticateUser sanitizedUsername (unwrap password) loginType ;;
       match user with
       | Some user =>
           if sqlval_eqb (Account.role user) (VText "admin")
              && sqlval_eqb (Account.status user) (VText "pending_verification")
           then
             ret (mkResponse 403
                    (Json (JObj
                       [("error", JStr "Admin account is pending verification. Please contact system administrator.");
                        ("pendingVerification", JBool true)])))
           else
             set_session_field (fun s =>
               Session.mk (VInt (Account.id user)) (Account.role user)
                 (Account.username user) (Some loginType)
                 (Session.loginAttempts s)) ;;
             _ <- logActivity (VInt (Account.id user)) (Account.username user)
                    "User logged in" (VText (ip req)) loginType ;;
             w <- get ;;
             (match Session.loginAttempts (session w) with
              | Some n =>
                  if negb (n =? 0) && (3 <? n) then
                    _ <- createSecurityEvent "suspicious_login" "medium"
                           VNull VNull (VText (ip req))
                           ("Multiple failed login attempts before successful login for user: "
                            ++ sanitizedUsername) ;;
                    ret tt
                  else ret tt
              | None => ret tt
              end) ;;
             set_session_field (fun s =>
               Session.mk (Session.userId s) (Session.userRole s)
                 (Session.username s) (Session.loginType s) (Some 0)) ;;
             let redirectUrl :=
               if sqlval_eqb (Account.role user) (VText "admin") then "/admin"
               else if sqlval_eqb (Account.role user) (VText "viewer") then "/viewer"
               else "/dashboard" in
             ret (mkResponse 200
                    (Json (JObj
                       [("success", JBool true);
                        ("redirect", JStr redirectUrl);
                        ("user",
                         JObj [("id", JInt (Account.id user));
                               ("fullname", json_of_sqlval (Account.fullname user));
                               ("username", json_of_sqlval (Account.username user));
                               ("role", json_of_sqlval (Account.role user))])])))
       | None =>
           set_session_field (fun s =>
             Session.mk (Session.userId s) (Session.userRole s)
               (Session.username s) (Session.loginType s)
               (Some (match Session.loginAttempts s with
                      | Some n => n
                      | None => 0
                      end + 1))) ;;
           _ <- createSecurityEvent "failed_login" "low" VNull VNull
                  (VText (ip req))
                  ("Failed login attempt for user: " ++ sanitizedUsername) ;;
           ret (error_json 401 "Invalid credentials")
       end)
      (fun _ => ret (error_json 500 "Login failed")).

(** [app.post('/auth/register', async (req, res) => ...)].  [createUser] is
    called with one argument, so its [userType] is ['user']; it resolves to
    an object that carries the new id, of which the model keeps the id. *)
Definition auth_register (req : request) : M response :=
  let fullname := string_field req "fullname" in
  let email := string_field req "email" in
  let username := string_field req "username" in
  let role := string_field req "role" in
  let password := string_field req "password" in
  let userType :=
    match string_field req "userType" with Some s => s | None => "user" end in
  if negb (Js.truthy fullname) || negb (Js.truthy email)
     || negb (Js.truthy username) || negb (Js.truthy role)
     || negb (Js.truthy password) then
    ret (error_json 400 "All fields are required")
  else
    let sanitizedFullname := sanitize (unwrap fullname) in
    let sanitizedEmail := toLowerCase (trim (unwrap email)) in
    let sanitizedUsername := sanitize (unwrap username) in
    try_catch
      (existingUser <- getUserByUsername sanitizedUsername ;;
       match existingUser with
       | Some _ => ret (error_json 409 "Username already exists")
       | None =>
           existingEmail <- getUserByEmail sanitizedEmail ;;
           match existingEmail with
           | Some _ => ret (error_json 409 "Email already registered")
           | None =>
               userId <- createUser sanitizedFullname sanitizedEmail
                           sanitizedUsername role (unwrap password) "user" ;;
               _ <- logActivity (VInt userId) (VText sanitizedUsername)
                      "User registered" (VText (ip req)) userType ;;
               ret (mkResponse 201
                      (Json (JObj [("success", JBool true);
                                   ("message", JStr "Registration successful");
                                   ("userId", JInt userId)])))
           end
       end)
      (fun _ => ret (error_json 500 "Registration failed")).

(** ** The user routes of server.js *)

Definition dec (z : Z) : string := NilZero.string_of_int (Z.to_int z).

(** [haystack.includes(needle)]. *)
Fixpoint includes (needle haystack : string) : bool :=
  String.prefix needle haystack
  || match haystack with
     | String _ rest => includes needle rest
     | EmptyString => false
     end.

(** The value SQLite receives for a JSON body value; the numbers of the
    bodies are taken to be integers. *)
Definition to_sqlval (j : json) : sqlval :=
  match j with
  | JNull => VNull
  | JBool b => VInt (if b then 1 else 0)
  | JNum q => VInt (Qfloor q)
  | JStr s => VText s
  | _ => VText "[object Object]"
  end.

(** [delete updates.key]. *)
Definition delete_key (k : string) (o : list (string * json))
  : list (string * json) :=
  filter (fun kv => negb (String.eqb (fst kv) k)) o.

(** [app.post('/api/auth/register', ...)]. *)
Definition api_register (req : request) : M response :=
  try_catch
    (let fullname := string_field req "fullname" in
     let email := string_field req "email" in
     let username := string_field req "username" in
     let role := string_field req "role" in
     let password := string_field req "password" in
     if negb (Js.truthy fullname) || negb (Js.truthy email)
        || negb (Js.truthy username) || negb (Js.truthy role)
        || negb (Js.truthy password) then
       ret (error_json 400 "All fields are required")
     else if (String.length (unwrap password) <? 8)%nat then
       ret (error_json 400 "Password must be at least 8 characters long")
     else if negb (existsb (String.eqb (unwrap role)) ["user"; "admin"; "viewer"]) then
       ret (error_json 400 "Invalid role")
     else
       id <- createUser (unwrap fullname) (unwrap email) (unwrap username)
               role (unwrap password) "user" ;;
       _ <- logActivity VNull (VText "system")
              ("Created new user: " ++ unwrap username ++ " (" ++ unwrap role ++ ")")
              VNull "user" ;;
       ret (mkResponse 201
              (Json (JObj [("message", JStr "User created successfully");
                           ("user",
                            JObj [("id", JInt id);
                                  ("fullname", JStr (unwrap fullname));
                                  ("email", JStr (unwrap email));
                                  ("username", JStr (unwrap username));
                                  ("role", JStr (unwrap role))])]))))
    (fun e =>
       if includes "UNIQUE constraint failed" (message_of e)
       then ret (error_json 400 "Username or email already exists")
       else ret (error_json 500 "Failed to create user")).

(** [app.put('/api/users/:id', ...)]. *)
Definition api_put_user (req : request) : M response :=
  try_catch
    (let userId := params_id req in
     let updates :=
       delete_key "password" (delete_key "created_at" (delete_key "id" (body req))) in
     changes <- updateUser userId
                  (map (fun kv => (fst kv, to_sqlval (snd kv))) updates) "user" ;;
     if 0 <? changes then
       _ <- logActivity VNull (VText "system")
              ("Updated user ID: " ++ dec userId) VNull "user" ;;
       ret (mkResponse 200 (Json (JObj [("message", JStr "User updated successfully")])))
     else ret (error_json 404 "User not found"))
    (fun _ => ret (error_json 500 "Failed to update user")).


(** ** Sample data used by the examples *)

Module Sample.

(** A stand-in for bcrypt: the hash records the cost, the salt and the
    password; it only has to differ from the password and to be recognised
    by [compare]. *)
Definition hash (password : string) (rounds : Z) (salt : nat) : string :=
  "$2b$" ++ dec rounds ++ "$" ++ dec (Z.of_nat salt) ++ "$" ++ password.

Definition compare (password h : string) : bool :=
  includes ("$" ++ password) h
  && String.eqb (substring (String.length h - String.length password)
                   (String.length password) h) password.

Definition E (r : Q) (ok : nat -> bool) : env :=
  mkEnv (fun _ => r) ok "2026-01-01T00:00:00.000Z" "2026-01-01 00:00:00"
    hash compare.

Definition always (_ : nat) : bool := true.
Definition never (_ : nat) : bool := false.
Definition fails_at (k : nat) (n : nat) : bool := negb (n =? k)%nat.

Definition north : District.t :=
  District.mk 1 "North District" 2000 1150 60 "normal" "2026-01-01 00:00:00".

Definition south : District.t :=
  District.mk 2 "South District" 800 795 99 "critical" "2026-01-01 00:00:00".

Definition user_row (id : Z) (name mail pw : string) : Account.t :=
  Account.mk id (VText name) (VText mail) (VText name) (VText "user")
    (VText (hash pw 10 0)) VNull VNull VNull VNull
    (VText "2026-01-01 00:00:00") (VInt 1) VNull.

(** An administrator whose registration awaits approval, as [createAdmin]
    stores it for the admin registration route. *)
Definition pending_admin : Account.t :=
  Account.mk 2 (VText "Bob") (VText "bob@example.org") (VText "bob")
    (VText "admin") (VText (hash "s3cretpass" 10 0)) (VText "IT")
    (VText "AB12CD34EF56") (VText "REG-1") (VText "pending_verification")
    (VText "2026-01-01T00:00:00.000Z") (VInt 0) VNull.

Definition w0 : world :=
  mkWorld
    (WifiData.mk 12500 9800 62 118 [north; south] "2026-01-01T00:00:00.000Z")
    (mkTable [user_row 1 "alice" "alice@example.org" "correct horse"] 1)
    (mkTable [pending_admin] 2)
    empty_table empty_table
    (mkTable [north; south] 2)
    empty_table empty_table
    [Client.mk 7 OPEN; Client.mk 8 CLOSING; Client.mk 9 OPEN]
    [] Session.empty 0%nat 0%nat 0%nat.

Definition post (fields : list (string * string)) : request :=
  mkRequest (map (fun kv => (fst kv, JStr (snd kv))) fields) "10.0.0.5" 0.

End Sample.

(** ** Vocabulary of the statements *)

(** A district after the loop body ran on it with the draws [k], [k+1] and
    [k+2] of the stream. *)
Definition tick_district (E : env) (k : nat) (d : District.t) : District.t :=
  District.mk (District.id d) (District.name d) (District.total_hotspots d)
    (newActiveHotspots d (rnd E k))
    (newUtilization d (rnd E (S k)))
    (newStatus (District.status d) (rnd E (S (S k))))
    (now E).

Fixpoint tick_districts (E : env) (k : nat) (ds : list District.t)
  : list District.t :=
  match ds with
  | [] => []
  | d :: rest => tick_district E k d :: tick_districts E (3 + k) rest
  end.

(** The clients [broadcastUpdate] writes to. *)
Definition open_clients (w : world) : list Client.t :=
  filter (fun c => readyState_eqb (Client.state c) OPEN) (clients w).

(** Every statement of the database succeeds. *)
Definition database_up (E : env) : Prop := forall k, db_ok E k = true.

(** Every draw lies in the interval that [Math.random] promises. *)
Definition draws_in_range (E : env) : Prop :=
  forall k, (0 <= rnd E k)%Q /\ (rnd E k < 1)%Q.

Definition known_status (s : string) : Prop :=
  In s ["normal"; "warning"; "critical"].

(** The values of a district stay in range: the active hotspots between 0
    and the total (0 when the total is negative), the utilization between 0
    and 100. *)
Definition clamped (d : District.t) : Prop :=
  0 <= District.active_hotspots d <= Z.max 0 (District.total_hotspots d)
  /\ 0 <= District.utilization d <= 100.



(** The cell of a row under a column name. *)
Definition get_column (key : string) (r : Account.t) : sqlval :=
  if String.eqb key "id" then VInt (Account.id r)
  else if String.eqb key "fullname" then Account.fullname r
  else if String.eqb key "email" then Account.email r
  else if String.eqb key "username" then Account.username r
  else if String.eqb key "role" then Account.role r
  else if String.eqb key "password" then Account.password r
  else if String.eqb key "department" then Account.department r
  else if String.eqb key "gov_id" then Account.gov_id r
  else if String.eqb key "registration_id" then Account.registration_id r
  else if String.eqb key "status" then Account.status r
  else if String.eqb key "created_at" then Account.created_at r
  else if String.eqb key "is_active" then Account.is_active r
  else if String.eqb key "last_login" then Account.last_login r
  else VNull.

(** No two rows share a value of the column. *)
Definition unique_column (col : Account.t -> sqlval) (rs : list Account.t)
  : Prop :=
  NoDup (map col rs).

(** The row carries the user name, is one that [authenticateUser] selects
    for the login type, and its stored hash accepts the password. *)
Definition credentials_match (E : env) (userType username password : string)
  (row : Account.t) : bool :=
  login_candidate userType username row
  && match Account.password row with
     | VText h => bcrypt_compare E password h
     | _ => false
     end.



(** The rows after an [UPDATE]: one row for each row before, in the same
    order; a row with another id is the row it was; the row that matches
    took the assignments, so that only the columns named in [updates] may
    have changed. *)
Definition updated_in_place (userId : Z) (updates : list (string * sqlval))
  (r r' : Account.t) : Prop :=
  (Account.id r <> userId -> r' = r)
  /\ (Account.id r = userId -> apply_updates updates r = Some r')
  /\ (forall key, ~ In key (map fst updates) ->
                  get_column key r' = get_column key r).

(** * The rest of the database module and of the routes *)

(** ** Queries of database.js *)

(** SQLite's order on values: NULL first, then the integers, then the texts
    in byte order. *)
Definition sqlval_leb (a b : sqlval) : bool :=
  match a, b with
  | VNull, _ => true
  | VInt _, VNull => false
  | VInt x, VInt y => x <=? y
  | VInt _, VText _ => true
  | VText _, VNull => false
  | VText _, VInt _ => false
  | VText x, VText y => String.leb x y
  end.

(** [ORDER BY]: an insertion sort; rows that tie keep their table order
    (SQLite leaves their order open). *)
Fixpoint insert_by {A : Type} (leb : A -> A -> bool) (x : A) (l : list A)
  : list A :=
  match l with
  | [] => [x]
  | y :: rest => if leb x y then x :: l else y :: insert_by leb x rest
  end.

Fixpoint order_by {A : Type} (leb : A -> A -> bool) (l : list A) : list A :=
  match l with
  | [] => []
  | x :: rest => insert_by leb x (order_by leb rest)
  end.

(** [getAdminById(adminId)]. *)
Definition getAdminById (adminId : Z) : M (option Account.t) :=
  statement ;;
  w <- get ;;
  ret (find (fun r => Account.id r =? adminId) (rows (admins w))).


(** A row as [getAllUsers] selects it: [id, fullname, email, username, role,
    created_at, is_active, last_login]. *)
Definition user_summary (r : Account.t) : json :=
  JObj [("id", JInt (Account.id r));
        ("fullname", json_of_sqlval (Account.fullname r));
        ("email", json_of_sqlval (Account.email r));
        ("username", json_of_sqlval (Account.username r));
        ("role", json_of_sqlval (Account.role r));
        ("created_at", json_of_sqlval (Account.created_at r));
        ("is_active", json_of_sqlval (Account.is_active r));
        ("last_login", json_of_sqlval (Account.last_login r))].

(** [getAllUsers(userType = 'user')]: [ORDER BY created_at DESC]. *)
Definition getAllUsers (userType : string) : M (list json) :=
  statement ;;
  w <- get ;;
  ret (map user_summary
         (order_by (fun a b => sqlval_leb (Account.created_at b) (Account.created_at a))
            (rows (accounts userType w)))).

(** [getAllDistricts()]: [ORDER BY name]. *)
Definition getAllDistricts : M (list District.t) :=
  statement ;;
  w <- get ;;
  ret (order_by (fun a b => String.leb (District.name a) (District.name b))
         (rows (districts w))).

(** [loadDistrictsFromDB()] of app.js. *)
Definition loadDistrictsFromDB : M unit :=
  loaded <- getAllDistricts ;;
  E <- ask ;;
  modify (fun w =>
    set_wifiData
      (updateMetricsFromDistricts (now E) (with_districts loaded (wifiData w))) w).

(** [clearActivityLogs(userType = 'user')]: resolves to the number of rows
    removed. *)
Definition clearActivityLogs (userType : string) : M Z :=
  statement ;;
  w <- get ;;
  let t := if is_admin userType then admin_activity_logs w
           else user_activity_logs w in
  let t' := mkTable [] (seq t) in
  put (if is_admin userType then set_admin_activity_logs t' w
       else set_user_activity_logs t' w) ;;
  ret (Z.of_nat (List.length (rows t))).

(** [resolveSecurityEvent(eventId, resolvedBy)]: resolves to the number of
    rows changed. *)
Definition resolveSecurityEvent (eventId : Z) (resolvedBy : sqlval) : M Z :=
  statement ;;
  E <- ask ;;
  w <- get ;;
  let t := security_events w in
  let hit (e : SecurityEvent.t) := SecurityEvent.id e =? eventId in
  let upd (e : SecurityEvent.t) :=
    if hit e then
      SecurityEvent.mk (SecurityEvent.id e) (SecurityEvent.event_type e)
        (SecurityEvent.severity e) (SecurityEvent.device_id e)
        (SecurityEvent.mac_address e) (SecurityEvent.ip_address e)
        (SecurityEvent.description e) (SecurityEvent.timestamp e) 1 resolvedBy
        (VText (current_timestamp E))
    else e in
  put (set_security_events (mkTable (map upd (rows t)) (seq t)) w) ;;
  ret (Z.of_nat (List.length (filter hit (rows t)))).

(** ** More routes of app.js *)

(** [app.get('/api/users', ...)]; [userType] is [req.query.userType]. *)
Definition api_users (userType : option string) (req : request) : M response :=
  try_catch
    (users <- getAllUsers (or_default userType "user") ;;
     ret (mkResponse 200 (Json (JArr users))))
    (fun _ => ret (error_json 500 "Failed to fetch users")).


(** [!req.session.userId || req.session.userRole !== 'admin']. *)
Definition not_an_admin_session (s : Session.t) : bool :=
  negb (truthy_val (Session.userId s))
  || negb (sqlval_eqb (Session.userRole s) (VText "admin")).

(** [app.post('/api/admin/approve/:id', ...)]. *)
Definition api_admin_approve (req : request) : M response :=
  try_catch
    (w <- get ;;
     if not_an_admin_session (session w) then ret (error_json 401 "Unauthorized")
     else
       let adminId := params_id req in
       let approvedBy := Session.username (session w) in
       admin <- getAdminById adminId ;;
       match admin with
       | None => ret (error_json 404 "Admin not found")
       | Some admin =>
           E <- ask ;;
           _ <- updateAdmin adminId
                  [("is_active", VInt 1); ("status", VText "active");
                   ("approved_by", approvedBy); ("approved_at", VText (now E))] ;;
           _ <- logActivity (VInt adminId) (Account.username admin)
                  "Admin account approved" (VText (ip req)) "admin" ;;
           ret (mkResponse 200
                  (Json (JObj [("success", JBool true);
                               ("message", JStr "Admin account approved successfully")])))
       end)
    (fun _ => ret (error_json 500 "Failed to approve admin")).

(** [app.post('/api/security-events/:id/resolve', ...)]. *)
Definition api_security_resolve (req : request) : M response :=
  try_catch
    (w <- get ;;
     if negb (truthy_val (Session.userId (session w)))
     then ret (error_json 401 "Unauthorized")
     else
       let eventId := params_id req in
       let resolvedBy := Session.username (session w) in
       _ <- resolveSecurityEvent eventId resolvedBy ;;
       ret (mkResponse 200 (Json (JObj [("success", JBool true)]))))
    (fun _ => ret (error_json 500 "Failed to resolve security event")).

(** The government ID of an admin registration. *)









(** ** More vocabulary *)



Definition activity_logs (userType : string) (w : world) : table ActivityLog.t :=
  if is_admin userType then admin_activity_logs w else user_activity_logs w.



(** The table of the login type after the [UPDATE] of [last_login] that
    follows an accepted password. *)
Definition touch_last_login (E : env) (userType : string) (row : Account.t)
  (w : world) : world :=
  let t := accounts userType w in
  set_accounts userType
    (mkTable
       (map (fun r => if Account.id r =? Account.id row
                      then set_last_login (VText (current_timestamp E)) r
                      else r) (rows t))
       (seq t)) w.

(** The tables of the other kind of account are as they were. *)
Definition other_kind_untouched (userType : string) (w w' : world) : Prop :=
  if is_admin userType
  then users w' = users w /\ user_activity_logs w' = user_activity_logs w
  else admins w' = admins w /\ admin_activity_logs w' = admin_activity_logs w.

(** ** More sample data *)

Module Sample2.

(** A second stand-in for bcrypt, whose hash ignores the salt. *)
Definition hash (password : string) (rounds : Z) (salt : nat) : string :=
  "$2b$" ++ password.

Definition compare (password h : string) : bool :=
  String.eqb h ("$2b$" ++ password).

Definition E (r : Q) (ok : nat -> bool) : env :=
  mkEnv (fun _ => r) ok "2026-01-01T00:00:00.000Z" "2026-01-01 00:00:00"
    hash compare.

End Sample2.


(** ** The array of the districts and their table *)

(** The columns of a district that the tick writes to both places, and
    those it never writes. *)
Definition stored_fields (d : District.t) : Z * string * Z * Z * Z * string :=
  (District.id d, District.name d, District.total_hotspots d,
   District.active_hotspots d, District.utilization d, District.status d).

(** The array [wifiData.districts] and the table [districts] hold the same
    districts, in any order. *)
Definition in_step (w : world) : Prop :=
  Permutation (map stored_fields (WifiData.districts (wifiData w)))
    (map stored_fields (rows (districts w))).

Definition distinct_ids (w : world) : Prop :=
  NoDup (map District.id (WifiData.districts (wifiData w))).

(** What the [UPDATE] of one iteration does to the columns of a row. *)
Definition tick_fields (d' : District.t)
  (f : Z * string * Z * Z * Z * string) : Z * string * Z * Z * Z * string :=
  let '(i, n, t, _, _, _) := f in
  if i =? District.id d'
  then (i, n, t, District.active_hotspots d', District.utilization d',
        District.status d')
  else f.


(** ** Start-up (app.js, [startServer]) *)

(** The first [n] firings of [setInterval(simulateRealTimeData, 2000)],
    each run to its end before the next. *)
Fixpoint ticks (n : nat) : M unit :=
  match n with
  | O => ret tt
  | S m => simulateRealTimeData ;; ticks m
  end.

(** [startServer()] from the world [database.init()] leaves, followed by the
    first [n] firings of the interval: when [loadDistrictsFromDB] rejects,
    [startServer] rejects before [setInterval] is reached. *)
Definition startServer (n : nat) : M unit :=
  loadDistrictsFromDB ;;
  ticks n.

Definition by_name (a b : District.t) : bool :=
  String.leb (District.name a) (District.name b).




(** ** Seeding the districts (database.js, [initializeDistricts]) *)

Definition district_names : list string :=
  ["North District"; "South District"; "East District"; "West District";
   "Central District"; "Northeast District"; "Northwest District";
   "Southeast District"; "Southwest District"; "Metro District"].

(** [INSERT OR REPLACE INTO districts (id, name, ...)]: [id] is the primary
    key and [name] is [UNIQUE], so the rows that hold the id or the name are
    deleted and the new row is added; the sequence of the table follows the
    largest id. *)
Definition replace_district (row : District.t) (t : table District.t)
  : table District.t :=
  mkTable
    (filter (fun r => negb (District.id r =? District.id row)
                      && negb (String.eqb (District.name r) (District.name row)))
       (rows t)
     ++ [row])
    (Z.max (seq t) (District.id row)).

(** One call of the callback of [districts.forEach], with the callback of
    its statement: a failure is logged and [completed] stays. *)
Definition seed_district (index : nat) (name : string) (completed : nat)
  : M nat :=
  r1 <- Math_random ;;
  let totalHotspots := Js.Math_floor (r1 * 2000) + 500 in
  r2 <- Math_random ;;
  let activeHotspots := Js.Math_floor (r2 * 1500) + 300 in
  r3 <- Math_random ;;
  let utilization := Js.Math_floor (r3 * 40) + 40 in
  r4 <- Math_random ;;
  status <- (if Js.lt (7 # 10) r4 then ret "critical"
             else r5 <- Math_random ;;
                  ret (if Js.lt (4 # 10) r5 then "warning" else "normal")) ;;
  try_catch
    (statement ;;
     E <- ask ;;
     modify (fun w =>
       set_districts
         (replace_district
            (District.mk (Z.of_nat index + 1) name totalHotspots activeHotspots
               utilization status (current_timestamp E))
            (districts w)) w) ;;
     ret (S completed))
    (fun _ => ret completed).

Fixpoint seed_districts (index : nat) (names : list string) (completed : nat)
  : M nat :=
  match names with
  | [] => ret completed
  | name :: rest =>
      completed' <- seed_district index name completed ;;
      seed_districts (S index) rest completed'
  end.

(** [initializeDistricts()], up to the call of [initializeSettings]: the
    result tells whether that call is reached.  When it is not, the promise
    never settles.  The ten statements are taken in the order of the
    array. *)
Definition initializeDistricts : M bool :=
  completed <- seed_districts 0 district_names 0 ;;
  ret (completed =? List.length district_names)%nat.

(** The ids the loop writes from position [index] on. *)
Definition seed_ids (index : nat) (names : list string) : list Z :=
  map (fun j => Z.of_nat j + 1) (List.seq index (List.length names)).

(** The rows a seeding from [index] on replaces. *)
Definition reseeded (index : nat) (names : list string) (r : District.t) : bool :=
  existsb (Z.eqb (District.id r)) (seed_ids index names)
  || existsb (String.eqb (District.name r)) names.

(** The ranges of a seeded row. *)
Definition seeded (d : District.t) : Prop :=
  500 <= District.total_hotspots d <= 2499
  /\ 300 <= District.active_hotspots d <= 1799
  /\ 40 <= District.utilization d <= 79
  /\ known_status (District.status d).


(** ** Reading the activity logs (database.js, [getActivityLogs]; app.js,
    [GET /api/logs]) *)

(** [LIMIT n]: a negative [n] is no limit. *)
Definition sql_limit {A : Type} (n : Z) (l : list A) : list A :=
  if n <? 0 then l else firstn (Z.to_nat n) l.

(** [getActivityLogs(limit = 100, userType = 'user')]:
    [ORDER BY timestamp DESC LIMIT ?]. *)
Definition getActivityLogs (limit : Z) (userType : string)
  : M (list ActivityLog.t) :=
  statement ;;
  w <- get ;;
  ret (sql_limit limit
         (order_by
            (fun a b => String.leb (ActivityLog.timestamp b) (ActivityLog.timestamp a))
            (rows (activity_logs userType w)))).

(** A row of an activity log as [SELECT *] returns it; the column of the
    account is [admin_id] in the log of the admins and [user_id] in that of
    the users. *)
Definition log_json (userType : string) (r : ActivityLog.t) : json :=
  JObj [("id", JInt (ActivityLog.id r));
        (if is_admin userType then "admin_id" else "user_id",
         json_of_sqlval (ActivityLog.user_id r));
        ("username", json_of_sqlval (ActivityLog.username r));
        ("action", JStr (ActivityLog.action r));
        ("timestamp", JStr (ActivityLog.timestamp r));
        ("ip_address", json_of_sqlval (ActivityLog.ip_address r))].

(** [parseInt(req.query.limit) || 100]; [parsed] is what [parseInt]
    returns, [None] for [NaN]. *)
Definition limit_or_100 (parsed : option Z) : Z :=
  match parsed with
  | Some n => if n =? 0 then 100 else n
  | None => 100
  end.

(** [GET /api/logs]. *)
Definition api_logs (limit : option Z) (userType : option string) : M response :=
  try_catch
    (let limit := limit_or_100 limit in
     let userType := or_default userType "user" in
     logs <- getActivityLogs limit userType ;;
     ret (mkResponse 200 (Json (JArr (map (log_json userType) logs)))))
    (fun _ => ret (error_json 500 "Failed to fetch logs")).



(** ** The login of server.js ([POST /api/auth/login]) *)


(** * Properties *)

Open Scope list_scope.

Ltac split_keys :=
  repeat match goal with
         | |- context [String.eqb ?a ?b] => destruct (String.eqb_spec a b); subst
         | H : context [String.eqb ?a ?b] |- _ => destruct (String.eqb_spec a b); subst
         end.

(** ** Draws *)

Lemma Math_floor_mul_range (r : Q) (n : Z) :
  (0 <= r)%Q -> (r < 1)%Q -> 0 < n ->
  0 <= Js.Math_floor (r * inject_Z n) <= n - 1.
Proof.
  intros H0 H1 Hn. unfold Js.Math_floor. split.
  - rewrite <- (Qfloor_Z 0). apply Qfloor_resp_le.
    apply Qmult_le_0_compat; [exact H0|].
    change 0%Q with (inject_Z 0). rewrite <- Zle_Qle. lia.
  - assert (Hlt : (r * inject_Z n < inject_Z n)%Q).
    { rewrite <- (Qmult_1_l (inject_Z n)) at 2.
      apply Qmult_lt_compat_r; [|exact H1].
      change 0%Q with (inject_Z 0). rewrite <- Zlt_Qlt. exact Hn. }
    assert (Hf : (inject_Z (Qfloor (r * inject_Z n)) <= r * inject_Z n)%Q)
      by apply Qfloor_le.
    assert (Hz : (inject_Z (Qfloor (r * inject_Z n)) < inject_Z n)%Q)
      by (eapply Qle_lt_trans; eassumption).
    rewrite <- Zlt_Qlt in Hz. lia.
Qed.

(** ** Aggregate metrics *)

Section Aggregates.

Variable f : District.t -> Z.

Lemma reduce_sum (ds : list District.t) (a : Z) :
  fold_left (fun sum district => sum + f district) ds a
  = a + fold_right Z.add 0 (map f ds).
Proof.
  revert a. induction ds as [|d ds IH]; intro a; simpl.
  - lia.
  - rewrite IH. lia.
Qed.

End Aggregates.

Lemma filter_critical_count (ds : list District.t) :
  List.length (filter (fun d => String.eqb (District.status d) "critical") ds)
  = count_critical ds.
Proof.
  unfold count_critical.
  induction ds as [|d ds IH]; simpl; [reflexivity|].
  destruct (String.eqb_spec (District.status d) "critical") as [e|ne];
    destruct (string_dec (District.status d) "critical") as [e'|ne'];
    simpl; congruence.
Qed.

Lemma updateMetricsFromDistricts_districts (now : string) (w : WifiData.t) :
  WifiData.districts (updateMetricsFromDistricts now w) = WifiData.districts w.
Proof. reflexivity. Qed.

(** C9, as amended.  [updateMetricsFromDistricts] is a total function of
    the district list.  Its totals are the sums of the two columns; the
    division is guarded by [totalHotspots > 0]: when the totals sum to 0 or
    less (the empty list included) the aggregate utilization is 0, and when
    the sum is positive it is [Math.round] of the double
    [(activeHotspots / totalHotspots) * 100], division first;
    [criticalDistricts] is the number of districts whose status is
    ['critical']. *)
Theorem updateMetricsFromDistricts_guarded (now : string) (w : WifiData.t) :
  let w' := updateMetricsFromDistricts now w in
  let t := sum_total (WifiData.districts w) in
  let a := sum_active (WifiData.districts w) in
  WifiData.totalHotspots w' = t
  /\ WifiData.activeHotspots w' = a
  /\ (t <= 0 -> WifiData.utilization w' = 0)
  /\ (0 < t ->
      WifiData.utilization w'
      = Js.Math_round
          (PrimFloat.mul (PrimFloat.div (Js.to_float a) (Js.to_float t))
             (Js.to_float 100)))
  /\ WifiData.criticalDistricts w' = Z.of_nat (count_critical (WifiData.districts w))
  /\ WifiData.districts w' = WifiData.districts w.
Proof.
  unfold updateMetricsFromDistricts, sum_total, sum_active; simpl.
  rewrite !reduce_sum, !Z.add_0_l, filter_critical_count.
  repeat split.
  - intro Ht. destruct (Z.ltb_spec 0
      (fold_right Z.add 0 (map District.total_hotspots (WifiData.districts w))));
      [lia|reflexivity].
  - intro Ht. destruct (Z.ltb_spec 0
      (fold_right Z.add 0 (map District.total_hotspots (WifiData.districts w))));
      [reflexivity|lia].
Qed.

(** The theorem on the two sample districts, and on an empty list. *)
Lemma updateMetricsFromDistricts_guarded_witness :
  let w := WifiData.mk 0 0 0 0 [Sample.north; Sample.south] "" in
  let e := WifiData.mk 12500 9800 62 118 [] "" in
  (0 < sum_total (WifiData.districts w)
   /\ WifiData.utilization (updateMetricsFromDistricts "t" w) = 69)
  /\ (sum_total (WifiData.districts e) <= 0
      /\ WifiData.utilization (updateMetricsFromDistricts "t" e) = 0).
Proof.
  split; (split; [vm_compute; congruence|]).
  - rewrite (proj1 (proj2 (proj2 (proj2
               (updateMetricsFromDistricts_guarded "t"
                  (WifiData.mk 0 0 0 0 [Sample.north; Sample.south] "")))))).
    + vm_compute. reflexivity.
    + reflexivity.
  - apply (proj1 (proj2 (proj2
             (updateMetricsFromDistricts_guarded "t"
                (WifiData.mk 12500 9800 62 118 [] ""))))).
    vm_compute. congruence.
Defined.

(** C9 as worded fails twice.  At a tie the double arithmetic can fall on
    the other side: one district with 1150 of 2000 hotspots active gives 57,
    where the exactly rounded percentage of 57.5 is 58.  And a sum of totals
    below 0 is not "otherwise": the guard answers 0. *)
Lemma utilization_is_not_the_exact_rounding :
  (WifiData.utilization
     (updateMetricsFromDistricts "t" (WifiData.mk 0 0 0 0 [Sample.north] "")) = 57
   /\ spec_utilization [Sample.north] = 58)
  /\ (let d := District.mk 3 "East District" (-5) 3 50 "normal" "" in
      WifiData.utilization
        (updateMetricsFromDistricts "t" (WifiData.mk 0 0 0 0 [d] "")) = 0
      /\ spec_utilization [d] = -60).
Proof. vm_compute. repeat split; reflexivity. Qed.

(** No tie rule repairs the wording: the tie 0.5 (10 of 2000) goes up, the
    tie 57.5 goes down. *)
Lemma ties_go_both_ways :
  let one (a t : Z) :=
    WifiData.utilization
      (updateMetricsFromDistricts "t"
         (WifiData.mk 0 0 0 0 [District.mk 1 "North District" t a 0 "normal" ""] "")) in
  one 10 2000 = 1 /\ one 1150 2000 = 57.
Proof. vm_compute. split; reflexivity. Qed.

(** ** The status transition *)


(** ** One tick of the simulation *)

Lemma set_nth_app {A : Type} (pre : list A) (x y : A) (rest : list A) :
  set_nth (List.length pre) y (pre ++ x :: rest) = pre ++ y :: rest.
Proof. induction pre as [|p pre IH]; simpl; [reflexivity|now rewrite IH]. Qed.

Lemma set_nth_In {A : Type} (i : nat) (y : A) (l : list A) (z : A) :
  In z (set_nth i y l) -> z = y \/ In z l.
Proof.
  revert i. induction l as [|x l IH]; intros i H.
  - destruct i; simpl in H; contradiction.
  - destruct i; simpl in H.
    + destruct H as [H|H]; [left; congruence|right; right; exact H].
    + destruct H as [H|H]; [right; left; exact H|].
      destruct (IH _ H) as [H'|H']; [left; exact H'|right; right; exact H'].
Qed.

(** The loop body, run: three draws, one statement, and the writes when the
    statement succeeds. *)
Lemma simulate_district_run (E : env) (w : world) (i : nat) (d : District.t) :
  simulate_district i d E w =
  let w1 := set_statements (S (statements w)) (set_draws (3 + draws w) w) in
  if db_ok E (statements w) then
    let hit (row : District.t) := District.id row =? District.id d in
    let d' := tick_district E (draws w) d in
    let upd (row : District.t) :=
      if hit row then
        District.mk (District.id row) (District.name row)
          (District.total_hotspots row) (District.active_hotspots d')
          (District.utilization d') (District.status d') (current_timestamp E)
      else row in
    (Ok tt,
     set_wifiData
       (with_districts (set_nth i d' (WifiData.districts (wifiData w))) (wifiData w))
       (set_districts (mkTable (map upd (rows (districts w))) (seq (districts w))) w1))
  else (Throw (SqliteError "SQLITE_ERROR"), w1).
Proof.
  unfold simulate_district, updateDistrict, statement, Math_random, bind, ask,
    get, put, modify, ret; simpl.
  destruct (db_ok E (statements w)); reflexivity.
Qed.

(** What the loop leaves alone, whatever the database does. *)
Lemma for_of_districts_frame (E : env) (todo : list District.t) :
  forall (i : nat) (w : world),
    let w' := snd (for_of_districts i todo E w) in
    outbox w' = outbox w
    /\ clients w' = clients w
    /\ wifi_metrics w' = wifi_metrics w
    /\ (draws w' <= draws w + 3 * List.length todo)%nat
    /\ Forall (fun d' =>
                 In d' (WifiData.districts (wifiData w))
                 \/ exists d k, In d todo /\ d' = tick_district E k d)
         (WifiData.districts (wifiData w')).
Proof.
  induction todo as [|d todo IH]; intros i w; simpl.
  - repeat split; try lia. apply Forall_forall. intros x Hx. left. exact Hx.
  - unfold bind. rewrite simulate_district_run. simpl.
    destruct (db_ok E (statements w)).
    + match goal with |- context [for_of_districts (S i) todo E ?w1] =>
        specialize (IH (S i) w1); simpl in IH;
        destruct IH as (Ho & Hc & Hm & Hd & Hf) end.
      rewrite Ho, Hc, Hm. repeat split; try lia.
      apply Forall_forall. intros x Hx.
      rewrite Forall_forall in Hf. destruct (Hf x Hx) as [Hin|(d0 & k & Hin & ->)].
      * apply set_nth_In in Hin. destruct Hin as [->|Hin].
        -- right. exists d, (draws w). split; [left; reflexivity|reflexivity].
        -- left. exact Hin.
      * right. exists d0, k. split; [right; exact Hin|reflexivity].
    + simpl. repeat split; try lia.
      apply Forall_forall. intros x Hx. left. exact Hx.
Qed.

(** The loop when the database is up: every district of the array is
    replaced by its ticked version, in order, three draws each. *)
Lemma for_of_districts_ok (E : env) (Hup : database_up E)
  (todo : list District.t) :
  forall (pre : list District.t) (w : world),
    WifiData.districts (wifiData w) = pre ++ todo ->
    exists w',
      for_of_districts (List.length pre) todo E w = (Ok tt, w')
      /\ WifiData.districts (wifiData w') = pre ++ tick_districts E (draws w) todo
      /\ WifiData.utilization (wifiData w') = WifiData.utilization (wifiData w)
      /\ draws w' = (draws w + 3 * List.length todo)%nat
      /\ statements w' = (statements w + List.length todo)%nat
      /\ outbox w' = outbox w
      /\ clients w' = clients w
      /\ wifi_metrics w' = wifi_metrics w.
Proof.
  induction todo as [|d todo IH]; intros pre w Hds; simpl.
  - exists w. unfold ret. rewrite Hds. repeat split; lia.
  - unfold bind. rewrite simulate_district_run. simpl. rewrite (Hup (statements w)).
    match goal with |- context [for_of_districts _ todo E ?w1] =>
      destruct (IH (pre ++ [tick_district E (draws w) d]) w1)
        as (w' & Hrun & Hd & Hu & Hdr & Hst & Ho & Hc & Hm) end.
    { simpl. rewrite Hds, set_nth_app, <- app_assoc. reflexivity. }
    rewrite length_app, Nat.add_comm in Hrun. simpl in Hrun.
    exists w'. rewrite Hrun. simpl in *.
    rewrite Hd, Hu, Hdr, Hst, Ho, Hc, Hm, <- app_assoc. simpl.
    repeat split; lia.
Qed.

Lemma update_main_metrics_run (E : env) (w : world) :
  exists w3,
    update_main_metrics E w = (Ok tt, w3)
    /\ WifiData.districts (wifiData w3) = WifiData.districts (wifiData w)
    /\ draws w3 = (3 + draws w)%nat
    /\ statements w3 = statements w
    /\ outbox w3 = outbox w
    /\ clients w3 = clients w
    /\ wifi_metrics w3 = wifi_metrics w.
Proof. eexists. split; [reflexivity|]. repeat split; reflexivity. Qed.

Lemma forEach_send (E : env) (message : json) (l : list Client.t) :
  forall w,
    forEach l
      (fun client =>
         if readyState_eqb (Client.state client) OPEN
         then send (Client.id client) message
         else ret tt) E w
    = (Ok tt,
       set_outbox
         (outbox w
          ++ map (fun c => (Client.id c, message))
               (filter (fun c => readyState_eqb (Client.state c) OPEN) l)) w).
Proof.
  induction l as [|c l IH]; intro w; simpl.
  - rewrite app_nil_r. destruct w; reflexivity.
  - unfold bind. destruct (readyState_eqb (Client.state c) OPEN); simpl.
    + unfold send, modify at 1. rewrite IH. simpl. rewrite <- app_assoc. reflexivity.
    + unfold ret at 1. apply IH.
Qed.

Lemma broadcastUpdate_run (E : env) (w : world) :
  broadcastUpdate E w
  = (Ok tt,
     set_outbox
       (outbox w
        ++ map (fun c => (Client.id c, data_update_broadcast (wifiData w)))
             (open_clients w)) w).
Proof. unfold broadcastUpdate, bind, get. apply forEach_send. Qed.

(** The statements after the loop: the metrics row is written and the
    broadcast follows, unless the [INSERT] fails. *)
Lemma recalculate_save_broadcast_run (E : env) (w : world) :
  let x := updateMetricsFromDistricts (now E) (wifiData w) in
  exists w',
    snd (recalculate_save_broadcast E w) = w'
    /\ wifiData w' = x
    /\ clients w' = clients w
    /\ draws w' = draws w
    /\ (if db_ok E (statements w)
        then fst (recalculate_save_broadcast E w) = Ok tt
             /\ outbox w'
                = outbox w
                  ++ map (fun c => (Client.id c, data_update_broadcast x))
                       (open_clients w)
        else outbox w' = outbox w).
Proof.
  unfold recalculate_save_broadcast, saveMetrics, statement, bind, ask, get,
    put, modify, ret. simpl.
  destruct (db_ok E (statements w)); simpl.
  - rewrite broadcastUpdate_run. simpl. eexists. split; [reflexivity|].
    simpl. repeat split; reflexivity.
  - eexists. split; [reflexivity|]. simpl. repeat split; reflexivity.
Qed.

(** One tick, whatever the database does: it never throws, every district
    of the array is either untouched or ticked, and the outbox either stays
    as it was or receives the broadcast. *)
Lemma simulateRealTimeData_frame (E : env) (w : world) :
  let ds := WifiData.districts (wifiData w) in
  let w' := snd (simulateRealTimeData E w) in
  fst (simulateRealTimeData E w) = Ok tt
  /\ clients w' = clients w
  /\ (draws w' <= draws w + 3 + 3 * List.length ds)%nat
  /\ Forall (fun d' => In d' ds \/ exists d k, In d ds /\ d' = tick_district E k d)
       (WifiData.districts (wifiData w'))
  /\ (outbox w' = outbox w
      \/ outbox w'
         = outbox w
           ++ map (fun c => (Client.id c, data_update_broadcast (wifiData w')))
                (open_clients w)).
Proof.
  unfold simulateRealTimeData, try_catch, bind.
  destruct (update_main_metrics_run E w) as (w3 & -> & Hds & Hdr & _ & Ho & Hc & _).
  unfold get. cbv beta iota zeta.
  pose proof (for_of_districts_frame E (WifiData.districts (wifiData w3)) 0 w3) as F.
  destruct (for_of_districts 0 (WifiData.districts (wifiData w3)) E w3) as [r wl].
  simpl in F. destruct F as (Fo & Fc & _ & Fd & Ff).
  rewrite Hds in Ff, Fd.
  destruct r as [[]|e].
  - destruct (recalculate_save_broadcast_run E wl) as (w' & Hw' & Hx & Hc' & Hd' & Hout).
    destruct (recalculate_save_broadcast E wl) as [r' w''] eqn:Hrun.
    simpl in Hw'. subst w''.
    assert (Hdist : WifiData.districts (wifiData w') = WifiData.districts (wifiData wl)).
    { rewrite Hx. apply updateMetricsFromDistricts_districts. }
    destruct r' as [[]|e']; simpl.
    + split; [reflexivity|]. split; [congruence|]. split; [lia|].
      split; [rewrite Hdist; exact Ff|].
      destruct (db_ok E (statements wl)).
      * right. destruct Hout as [_ Hout]. rewrite Hout, Hx, Fo, Ho.
        unfold open_clients. rewrite Fc, Hc. reflexivity.
      * left. congruence.
    + unfold ret. simpl. split; [reflexivity|]. split; [congruence|].
      split; [lia|]. split; [rewrite Hdist; exact Ff|].
      destruct (db_ok E (statements wl)).
      * destruct Hout as [Hok _]. simpl in Hok. discriminate.
      * left. congruence.
  - unfold ret. simpl. split; [reflexivity|]. split; [congruence|].
    split; [lia|]. split; [exact Ff|]. left. congruence.
Qed.

(** One tick when the database is up. *)
Lemma simulateRealTimeData_up (E : env) (w : world) :
  database_up E ->
  let ds := WifiData.districts (wifiData w) in
  let w' := snd (simulateRealTimeData E w) in
  WifiData.districts (wifiData w') = tick_districts E (3 + draws w) ds
  /\ draws w' = (draws w + 3 + 3 * List.length ds)%nat
  /\ outbox w'
     = outbox w
       ++ map (fun c => (Client.id c, data_update_broadcast (wifiData w')))
            (open_clients w).
Proof.
  intro Hup.
  unfold simulateRealTimeData, try_catch, bind.
  destruct (update_main_metrics_run E w) as (w3 & -> & Hds & Hdr & _ & Ho & Hc & _).
  unfold get. cbv beta iota zeta.
  destruct (for_of_districts_ok E Hup (WifiData.districts (wifiData w3)) [] w3 eq_refl)
    as (wl & Hrun & Hd & _ & Hdraws & _ & Fo & Fc & _).
  simpl in Hrun. rewrite Hrun.
  destruct (recalculate_save_broadcast_run E wl) as (w' & Hw' & Hx & Hc' & Hd' & Hout).
  rewrite (Hup (statements wl)) in Hout. destruct Hout as [Hok Hout].
  destruct (recalculate_save_broadcast E wl) as [r' w''].
  simpl in Hw', Hok. subst w'' r'. simpl.
  assert (Hdist : WifiData.districts (wifiData w') = WifiData.districts (wifiData wl)).
  { rewrite Hx. apply updateMetricsFromDistricts_districts. }
  split; [|split].
  - rewrite Hdist, Hd, Hdr, Hds. reflexivity.
  - rewrite Hd', Hdraws, Hdr, Hds. lia.
  - rewrite Hout, Hx, Fo, Ho. unfold open_clients. rewrite Fc, Hc. reflexivity.
Qed.



Lemma tick_district_clamped (E : env) (k : nat) (d : District.t) :
  clamped (tick_district E k d).
Proof.
  unfold clamped, tick_district, newActiveHotspots, newUtilization,
    Js.Math_max, Js.Math_min; simpl. lia.
Qed.



Lemma tick_districts_Forall (E : env) (P : District.t -> Prop) :
  (forall k d, P (tick_district E k d)) ->
  forall ds k, Forall P (tick_districts E k ds).
Proof.
  intros HP ds. induction ds as [|d ds IH]; intro k; simpl; constructor.
  - apply HP.
  - apply IH.
Qed.




(** ** Draws per district *)

(** C7, as amended.  One iteration of the loop over the districts consumes
    exactly three draws, whether its [UPDATE] succeeds or not: one for the
    active hotspots, one for the utilization, one for the status.  A whole
    tick with the database up consumes three draws for the aggregate
    counters and three per district. *)
Theorem three_draws_per_district (E : env) (w : world) (i : nat) (d : District.t) :
  draws (snd (simulate_district i d E w)) = (draws w + 3)%nat
  /\ (database_up E ->
      draws (snd (simulateRealTimeData E w))
      = (draws w + 3 + 3 * List.length (WifiData.districts (wifiData w)))%nat).
Proof.
  split.
  - rewrite simulate_district_run. simpl.
    destruct (db_ok E (statements w)); simpl; lia.
  - intro Hup. apply (simulateRealTimeData_up E w Hup).
Qed.

(** The theorem on the sample world: two districts, nine draws. *)
Lemma three_draws_per_district_witness :
  let E := Sample.E (1 # 2) Sample.always in
  database_up E /\ draws (snd (simulateRealTimeData E Sample.w0)) = 9%nat.
Proof.
  assert (Hup : database_up (Sample.E (1 # 2) Sample.always))
    by (intro k; reflexivity).
  split; [exact Hup|].
  exact (proj2 (three_draws_per_district _ Sample.w0 0 Sample.north) Hup).
Defined.

(** C7 as worded fails: the iteration for one district leaves the stream
    three draws further, not four. *)
Lemma not_four_draws_per_district :
  let E := Sample.E (1 # 2) Sample.always in
  draws (snd (simulate_district 0 Sample.north E Sample.w0))
  <> (draws Sample.w0 + 4)%nat.
Proof. vm_compute. discriminate. Qed.

(** ** The status set *)



(** ** The WebSocket channel *)

Lemma generateSampleHotspots_frame (E : env) (w : world) :
  exists hotspots w1,
    generateSampleHotspots E w = (Ok hotspots, w1)
    /\ outbox w1 = outbox w
    /\ clients w1 = clients w
    /\ wifiData w1 = wifiData w.
Proof.
  unfold generateSampleHotspots, bind, Math_random, ret.
  cbv beta iota zeta.
  match goal with |- context [Js.lt (8 # 10) ?z] => destruct (Js.lt (8 # 10) z) end;
    do 2 eexists; (split; [reflexivity|]); repeat split; reflexivity.
Qed.

Lemma on_connection_run (E : env) (w : world) (ws : nat) :
  exists hotspots,
    outbox (snd (on_connection ws E w))
    = outbox w ++ [(ws, initial_data_message hotspots (wifiData w))].
Proof.
  unfold on_connection, bind.
  destruct (generateSampleHotspots_frame E w) as (h & w1 & -> & Ho & _ & Hx).
  exists h. unfold get, send, modify. simpl. rewrite Ho, Hx. reflexivity.
Qed.



(** The frames of examples: a request for an update, and a frame that is not
    JSON. *)
Example request_update_is_answered :
  let frame := Some (JObj [("type", JStr "request_update")]) in
  map fst (outbox (snd (ws_handle (Message 7 frame)
                          (Sample.E (1 # 2) Sample.always) Sample.w0)))
  = [7%nat]
  /\ outbox (snd (ws_handle (Message 7 None)
                    (Sample.E (1 # 2) Sample.always) Sample.w0)) = [].
Proof. vm_compute. split; reflexivity. Qed.

(** ** Page routes *)



(** C1 does not hold of app.js.  The routes of the three pages list no
    middleware: [requireAuth] and [requireRole] are defined and used
    nowhere.  Every [GET] of [/admin], [/dashboard] or [/viewer] is answered
    200 with the page, whatever the session holds; in particular for a
    session without user and without role. *)
Theorem pages_are_served_to_any_session (E : env) (w : world) (req : request) :
  get_page "/admin" req E w
  = (Ok (Some (mkResponse 200 (Render "admin" (Some (wifiData w, "admin"))))), w)
  /\ get_page "/dashboard" req E w
     = (Ok (Some (mkResponse 200 (Render "dashboard" (Some (wifiData w, "user"))))), w)
  /\ get_page "/viewer" req E w
     = (Ok (Some (mkResponse 200 (Render "viewer" (Some (wifiData w, "viewer"))))), w).
Proof. repeat split; reflexivity. Qed.

Example admin_page_without_login :
  Session.userId (session Sample.w0) = VNull
  /\ Session.userRole (session Sample.w0) = VNull
  /\ fst (get_page "/admin" (mkRequest [] "10.0.0.5" 0)
            (Sample.E (1 # 2) Sample.always) Sample.w0)
     = Ok (Some (mkResponse 200
                   (Render "admin" (Some (wifiData Sample.w0, "admin"))))).
Proof. repeat split; reflexivity. Qed.

(** Had the route listed the two middlewares, the same request would have
    been sent to the login page. *)
Example admin_page_behind_the_middlewares :
  fst (run_middlewares [requireAuth; requireRole "admin"]
         (mkRequest [] "10.0.0.5" 0)
         (render "admin" "admin" (mkRequest [] "10.0.0.5" 0))
         (Sample.E (1 # 2) Sample.always) Sample.w0)
  = Ok (mkResponse 302 (Redirect "/login")).
Proof. reflexivity. Qed.

(** ** Registration *)

(** The registration route of app.js never reaches its 409 answers: past
    the check of the fields, the first statement of the [try] block calls a
    method that class [Database] does not have. *)
Lemma auth_register_run (E : env) (w : world) (req : request) :
  auth_register req E w
  = if negb (Js.truthy (string_field req "fullname"))
       || negb (Js.truthy (string_field req "email"))
       || negb (Js.truthy (string_field req "username"))
       || negb (Js.truthy (string_field req "role"))
       || negb (Js.truthy (string_field req "password"))
    then (Ok (error_json 400 "All fields are required"), w)
    else (Ok (error_json 500 "Registration failed"), w).
Proof.
  unfold auth_register.
  destruct (negb (Js.truthy (string_field req "fullname"))
            || negb (Js.truthy (string_field req "email"))
            || negb (Js.truthy (string_field req "username"))
            || negb (Js.truthy (string_field req "role"))
            || negb (Js.truthy (string_field req "password"))); reflexivity.
Qed.

(** C3 does not hold of app.js.  A registration whose user name is already
    in [users] is answered 500, not 409; no account is created. *)
Theorem register_existing_username_answers_500 :
  let req := Sample.post [("fullname", "Alice B"); ("email", "alice2@example.org");
                          ("username", "alice"); ("role", "user");
                          ("password", "another pass")] in
  let E := Sample.E (1 # 2) Sample.always in
  existsb (fun r => sqlval_eqb (Account.username r) (VText "alice"))
    (rows (users Sample.w0)) = true
  /\ auth_register req E Sample.w0
     = (Ok (error_json 500 "Registration failed"), Sample.w0).
Proof. split; reflexivity. Qed.

(** The registration route of server.js answers such a request 400, from the
    [UNIQUE] constraint, and creates nothing either. *)
Example api_register_existing_username_answers_400 :
  let req := Sample.post [("fullname", "Alice B"); ("email", "alice2@example.org");
                          ("username", "alice"); ("role", "user");
                          ("password", "another pass")] in
  let E := Sample.E (1 # 2) Sample.always in
  fst (api_register req E Sample.w0)
  = Ok (error_json 400 "Username or email already exists")
  /\ users (snd (api_register req E Sample.w0)) = users Sample.w0.
Proof. vm_compute. split; reflexivity. Qed.

(** ** Login *)







(** ** Stored passwords *)

Lemma insert_account_run (E : env) (w : world) (userType : string)
  (mk_row : Z -> Account.t) :
  insert_account userType mk_row E w
  = let w1 := set_statements (S (statements w)) w in
    let t := accounts userType w in
    let row := mk_row (seq t + 1) in
    if db_ok E (statements w) then
      if negb (not_null_ok row) then
        (Throw (SqliteError "SQLITE_CONSTRAINT: NOT NULL constraint failed"), w1)
      else if negb (unique_ok (is_admin userType) row (rows t)) then
        (Throw (SqliteError "SQLITE_CONSTRAINT: UNIQUE constraint failed"), w1)
      else
        (Ok (seq t + 1),
         set_accounts userType (mkTable (rows t ++ [row]) (seq t + 1)) w1)
    else (Throw (SqliteError "SQLITE_ERROR"), w1).
Proof.
  unfold insert_account, statement, bind, get, put, ret, throw.
  cbv beta iota zeta.
  assert (Hacc : accounts userType (set_statements (S (statements w)) w)
                 = accounts userType w)
    by (unfold accounts; destruct (is_admin userType); reflexivity).
  destruct (db_ok E (statements w)); [|reflexivity].
  cbv beta iota zeta. rewrite Hacc.
  destruct (negb (not_null_ok (mk_row (seq (accounts userType w) + 1))));
    [reflexivity|].
  destruct (negb (unique_ok (is_admin userType)
                    (mk_row (seq (accounts userType w) + 1))
                    (rows (accounts userType w)))); reflexivity.
Qed.

Lemma accounts_set_accounts (userType : string) (t : table Account.t) (w : world) :
  accounts userType (set_accounts userType t w) = t.
Proof. unfold accounts, set_accounts. destruct (is_admin userType); reflexivity. Qed.

Lemma accounts_set_statements (userType : string) (n : nat) (w : world) :
  accounts userType (set_statements n w) = accounts userType w.
Proof. unfold accounts. destruct (is_admin userType); reflexivity. Qed.

Lemma accounts_set_hashes (userType : string) (n : nat) (w : world) :
  accounts userType (set_hashes n w) = accounts userType w.
Proof. unfold accounts. destruct (is_admin userType); reflexivity. Qed.

(** What an [INSERT] of an account leaves in the table: the old rows and,
    when it succeeds, the new row at the end. *)
Lemma insert_account_rows (E : env) (w : world) (userType : string)
  (mk_row : Z -> Account.t) :
  let t := accounts userType w in
  let out := insert_account userType mk_row E w in
  match fst out with
  | Ok id =>
      id = seq t + 1
      /\ rows (accounts userType (snd out)) = rows t ++ [mk_row id]
      /\ constraints_ok (is_admin userType) (mk_row id) (rows t) = true
  | Throw _ => accounts userType (snd out) = t
  end.
Proof.
  cbv zeta. rewrite insert_account_run. cbv zeta.
  unfold constraints_ok.
  destruct (db_ok E (statements w)); simpl;
    [|apply accounts_set_statements].
  destruct (not_null_ok (mk_row (seq (accounts userType w) + 1))) eqn:Hnn;
    simpl; [|apply accounts_set_statements].
  destruct (unique_ok (is_admin userType)
              (mk_row (seq (accounts userType w) + 1))
              (rows (accounts userType w))) eqn:Hun; simpl;
    [|apply accounts_set_statements].
  rewrite accounts_set_accounts. simpl. rewrite Hnn, Hun. repeat split.
Qed.

(** ** Lifecycle of the account rows *)

(** An assignment changes the cell of its column only. *)
Lemma set_column_other (key k : string) (v : sqlval) (r r' : Account.t) :
  set_column k v r = Some r' -> key <> k ->
  get_column key r' = get_column key r.
Proof.
  intros H Hne. destruct r. unfold set_column in H.
  destruct (String.eqb_spec k "id"); subst.
  { destruct v; try discriminate. injection H as <-.
    unfold get_column. split_keys; try reflexivity; congruence. }
  split_keys; try discriminate; injection H as <-;
    unfold get_column; split_keys; try reflexivity; congruence.
Qed.

Lemma apply_updates_other (key : string) (updates : list (string * sqlval)) :
  forall r r',
    apply_updates updates r = Some r' ->
    ~ In key (map fst updates) ->
    get_column key r' = get_column key r.
Proof.
  induction updates as [|[k v] updates IH]; intros r r' H Hnot; simpl in *.
  - injection H as <-. reflexivity.
  - destruct (set_column k v r) as [r1|] eqn:Hset; [|discriminate].
    rewrite (IH r1 r' H) by tauto.
    apply (set_column_other key k v r r1 Hset). intro; subst; tauto.
Qed.

Lemma update_rows_in_place (admin : bool) (userId : Z)
  (updates : list (string * sqlval)) (after : list Account.t) :
  forall before res,
    update_rows admin userId updates before after = Some res ->
    exists res', res = rev before ++ res'
                 /\ Forall2 (updated_in_place userId updates) after res'.
Proof.
  induction after as [|r rest IH]; intros before res H; simpl in H.
  - injection H as <-. exists []. rewrite app_nil_r. split; [reflexivity|constructor].
  - destruct (Z.eqb_spec (Account.id r) userId) as [Heq|Hne].
    + destruct (apply_updates updates r) as [r'|] eqn:Hap; [|discriminate].
      destruct (constraints_ok admin r' (rev before ++ rest)); [|discriminate].
      destruct (IH _ _ H) as (res' & -> & HF).
      exists (r' :: res'). simpl. rewrite <- app_assoc. split; [reflexivity|].
      constructor; [|exact HF].
      split; [intro; contradiction|]. split; [intros _; exact Hap|].
      intros key Hkey. apply (apply_updates_other key updates r r' Hap Hkey).
    + destruct (IH _ _ H) as (res' & -> & HF).
      exists (r :: res'). simpl. rewrite <- app_assoc. split; [reflexivity|].
      constructor; [|exact HF].
      split; [reflexivity|]. split; [intro; contradiction|reflexivity].
Qed.

(** What [updateUser] resolves to and leaves behind. *)
Lemma updateUser_run (E : env) (w : world) (userId : Z)
  (updates : list (string * sqlval)) (userType : string) :
  let out := updateUser userId updates userType E w in
  match fst out with
  | Ok changes =>
      Forall2 (updated_in_place userId updates)
        (rows (accounts userType w)) (rows (accounts userType (snd out)))
      /\ seq (accounts userType (snd out)) = seq (accounts userType w)
      /\ changes
         = Z.of_nat (List.length (filter (fun r => Account.id r =? userId)
                                    (rows (accounts userType w))))
  | Throw _ => accounts userType (snd out) = accounts userType w
  end.
Proof.
  cbv zeta. unfold updateUser, statement, bind, get, put, ret, throw.
  cbv beta iota zeta.
  destruct (db_ok E (statements w)); cbv beta iota zeta;
    rewrite ?accounts_set_statements;
    [|simpl; apply accounts_set_statements].
  destruct updates as [|kv updates];
    [simpl; apply accounts_set_statements|].
  destruct (forallb (fun kv0 => is_column (is_admin userType) (fst kv0))
              (kv :: updates));
    [|simpl; apply accounts_set_statements].
  destruct (update_rows (is_admin userType) userId (kv :: updates) []
              (rows (accounts userType w))) as [rows'|] eqn:Hup;
    [|simpl; apply accounts_set_statements].
  simpl fst. simpl snd. rewrite accounts_set_accounts. simpl.
  destruct (update_rows_in_place _ _ _ _ _ _ Hup) as (res' & -> & HF).
  split; [exact HF|split; reflexivity].
Qed.


(** A deactivation, on the sample table: the row stays, only [is_active]
    changes. *)
Example deactivation_keeps_the_row :
  let E := Sample.E (1 # 2) Sample.always in
  let w' := snd (updateUser 1 [("is_active", VInt 0)] "user" E Sample.w0) in
  map Account.id (rows (users w')) = [1]
  /\ map Account.is_active (rows (users w')) = [VInt 0]
  /\ map Account.username (rows (users w')) = [VText "alice"].
Proof. vm_compute. repeat split; reflexivity. Qed.


(** ** Stored passwords, continued *)






Example api_put_user_drops_the_password_key :
  let E := Sample.E (1 # 2) Sample.always in
  let req := mkRequest [("password", JStr "hunter2"); ("role", JStr "viewer")]
               "10.0.0.5" 1 in
  let out := api_put_user req E Sample.w0 in
  map Account.password (rows (users (snd out)))
  = map Account.password (rows (users Sample.w0))
  /\ map Account.role (rows (users (snd out))) = [VText "viewer"].
Proof. vm_compute. split; reflexivity. Qed.

(** ** Uniqueness of user names and e-mail addresses *)

Lemma sqlval_eqb_eq (a b : sqlval) : sqlval_eqb a b = true <-> a = b.
Proof.
  destruct a as [|x|x], b as [|y|y]; simpl; split; intro H;
    try reflexivity; try discriminate.
  - apply Z.eqb_eq in H. congruence.
  - injection H as ->. apply Z.eqb_refl.
  - apply String.eqb_eq in H. congruence.
  - injection H as ->. apply String.eqb_refl.
Qed.

Lemma unique_among_fresh (col : Account.t -> sqlval) (v : sqlval)
  (others : list Account.t) :
  not_null v = true -> unique_among col v others = true ->
  ~ In v (map col others).
Proof.
  intros Hnn Hu Hin. apply in_map_iff in Hin. destruct Hin as (r & Hr & Hin).
  destruct v as [|n|s]; [discriminate| |];
    simpl in Hu; rewrite forallb_forall in Hu; specialize (Hu r Hin);
    rewrite Hr in Hu; apply negb_true_iff in Hu;
    assert (Ht : sqlval_eqb (col r) (col r) = true) by (apply sqlval_eqb_eq; reflexivity);
    rewrite Hr in Ht at 2; congruence.
Qed.

Lemma NoDup_snoc {A : Type} (l : list A) (x : A) :
  NoDup l -> ~ In x l -> NoDup (l ++ [x]).
Proof.
  induction l as [|y l IH]; intros Hl Hx; simpl.
  - constructor; [intros []|constructor].
  - inversion Hl as [|? ? Hy Hl']; subst. constructor.
    + rewrite in_app_iff. simpl. intros [H|[H|[]]]; [tauto|].
      apply Hx. left. symmetry. exact H.
    + apply IH; [exact Hl'|]. intro H. apply Hx. right. exact H.
Qed.

(** The [UNIQUE] constraints do their work: an [INSERT] of an account, be
    it accepted or rejected, leaves the user names and the e-mail addresses
    of the table without duplicate.  [createUser] and [createAdmin] insert
    through it. *)
Lemma insert_account_keeps_unique (E : env) (w : world) (userType : string)
  (mk_row : Z -> Account.t) :
  let t := accounts userType w in
  let t' := accounts userType (snd (insert_account userType mk_row E w)) in
  unique_column Account.username (rows t) ->
  unique_column Account.email (rows t) ->
  unique_column Account.username (rows t')
  /\ unique_column Account.email (rows t').
Proof.
  cbv zeta. intros Hu He.
  pose proof (insert_account_rows E w userType mk_row) as R. cbv zeta in R.
  destruct (fst (insert_account userType mk_row E w)) as [id|e].
  - destruct R as (_ & -> & Hc). unfold constraints_ok, not_null_ok, unique_ok in Hc.
    repeat match goal with
           | H : _ && _ = true |- _ =>
               apply andb_true_iff in H; let H' := fresh in destruct H as [H H']
           end.
    unfold unique_column. rewrite !map_app. simpl.
    split; apply NoDup_snoc; try assumption;
      apply unique_among_fresh; assumption.
  - rewrite R. split; assumption.
Qed.

(** The seeding of the default administrator stores a hash as well, and a
    second seeding is stopped by the [UNIQUE] constraint. *)
Example seedInitialData_stores_a_hash :
  let E := Sample.E (1 # 2) Sample.always in
  let w1 := snd (seedInitialData E Sample.w0) in
  let w2 := snd (seedInitialData E w1) in
  map Account.password (rows (admins w1))
  = [VText "$2b$10$0$s3cretpass"; VText "$2b$10$0$admin123"]
  /\ rows (admins w2) = rows (admins w1).
Proof. vm_compute. split; reflexivity. Qed.

(** * Further properties *)

(** ** A login that succeeds *)

Lemma authenticateUser_accepts (E : env) (w : world)
  (username password userType : string) (row : Account.t) :
  db_ok E (statements w) = true ->
  find (login_candidate userType username) (rows (accounts userType w)) = Some row ->
  credentials_match E userType username password row = true ->
  authenticateUser username password userType E w
  = (Ok (Some row),
     if db_ok E (S (statements w))
     then touch_last_login E userType row (set_statements (S (S (statements w))) w)
     else set_statements (S (S (statements w))) w).
Proof.
  intros Hok Hfind Hcred. unfold authenticateUser, bind, statement, get. rewrite Hok.
  cbv beta iota zeta.
  rewrite accounts_set_statements, Hfind.
  unfold credentials_match in Hcred.
  apply andb_true_iff in Hcred. destruct Hcred as [_ Hcmp].
  unfold ask. cbv beta iota zeta.
  destruct (Account.password row) as [|n|h]; try discriminate.
  rewrite Hcmp. unfold try_catch, statement, bind, get, put, ret, touch_last_login,
    set_accounts, accounts.
  cbv beta iota zeta. simpl statements.
  destruct (db_ok E (S (statements w))); destruct (is_admin userType); reflexivity.
Qed.










(** ** The admin routes *)

(** X5.  The approval route never approves.  Its [UPDATE] names the columns
    [approved_by] and [approved_at], which the [admins] table of
    [createTables] does not have, so the statement is rejected: the route
    answers 401 to a session that is not an admin's, 404 when no admin has
    the id, and 500 otherwise -- never 200 -- and the accounts and the admin
    activity log are as they were. *)
Theorem admin_approval_never_succeeds (E : env) (w : world) (req : request) :
  let out := api_admin_approve req E w in
  fst out
  = Ok (if not_an_admin_session (session w) then error_json 401 "Unauthorized"
        else if negb (db_ok E (statements w))
             then error_json 500 "Failed to approve admin"
             else match find (fun r => Account.id r =? params_id req)
                          (rows (admins w)) with
                  | None => error_json 404 "Admin not found"
                  | Some _ => error_json 500 "Failed to approve admin"
                  end)
  /\ admins (snd out) = admins w
  /\ users (snd out) = users w
  /\ admin_activity_logs (snd out) = admin_activity_logs w.
Proof.
  cbv zeta. unfold api_admin_approve, try_catch, bind, get.
  cbv beta iota zeta.
  destruct (not_an_admin_session (session w)); [repeat split; reflexivity|].
  unfold getAdminById, statement, bind, get, ret. cbv beta iota zeta.
  destruct (db_ok E (statements w)); [|repeat split; reflexivity].
  cbv beta iota zeta.
  change (admins (set_statements (S (statements w)) w)) with (admins w).
  destruct (find (fun r => Account.id r =? params_id req) (rows (admins w)));
    [|repeat split; reflexivity].
  unfold ask, updateAdmin, updateUser, statement, bind, get. cbv beta iota zeta.
  simpl statements.
  destruct (db_ok E (S (statements w))); repeat split; reflexivity.
Qed.

(** A pending registration survives an approval by a logged-in admin. *)
Example approval_of_the_pending_admin :
  let E := Sample.E (1 # 2) Sample.always in
  let w := set_session (Session.mk (VInt 1) (VText "admin") (VText "admin")
                          (Some "admin") (Some 0)) Sample.w0 in
  let out := api_admin_approve (mkRequest [] "10.0.0.5" 2) E w in
  fst out = Ok (error_json 500 "Failed to approve admin")
  /\ map Account.status (rows (admins (snd out))) = [VText "pending_verification"].
Proof. vm_compute. split; reflexivity. Qed.


(** X7.  Only a session with a user resolves a security event: without one
    the route answers 401 and the events are as they were.  With one and the
    statement succeeding it answers 200 -- also when no event has the id --
    and the events with the id, and only they, are marked resolved by the
    user name of the session. *)
Theorem resolving_requires_a_session (E : env) (w : world) (req : request) :
  let out := api_security_resolve req E w in
  let resolved (e : SecurityEvent.t) :=
    SecurityEvent.mk (SecurityEvent.id e) (SecurityEvent.event_type e)
      (SecurityEvent.severity e) (SecurityEvent.device_id e)
      (SecurityEvent.mac_address e) (SecurityEvent.ip_address e)
      (SecurityEvent.description e) (SecurityEvent.timestamp e) 1
      (Session.username (session w)) (VText (current_timestamp E)) in
  (truthy_val (Session.userId (session w)) = false ->
   fst out = Ok (error_json 401 "Unauthorized") /\ snd out = w)
  /\ (truthy_val (Session.userId (session w)) = true ->
      db_ok E (statements w) = true ->
      fst out = Ok (mkResponse 200 (Json (JObj [("success", JBool true)])))
      /\ rows (security_events (snd out))
         = map (fun e => if SecurityEvent.id e =? params_id req
                         then resolved e else e)
             (rows (security_events w)))
  /\ (truthy_val (Session.userId (session w)) = true ->
      db_ok E (statements w) = false ->
      fst out = Ok (error_json 500 "Failed to resolve security event")
      /\ security_events (snd out) = security_events w).
Proof.
  cbv zeta. unfold api_security_resolve, try_catch, bind, get.
  cbv beta iota zeta.
  split; [|split].
  - intros ->. split; reflexivity.
  - intros -> Hdb. change (negb true) with false. cbv beta iota.
    unfold resolveSecurityEvent, statement, bind, ask, get, put, ret.
    cbv beta iota zeta. rewrite Hdb. split; reflexivity.
  - intros -> Hdb. change (negb true) with false. cbv beta iota.
    unfold resolveSecurityEvent, statement, bind, ask, get, put, ret.
    cbv beta iota zeta. rewrite Hdb. split; reflexivity.
Qed.

(** The theorem on the sample world, after a failed login left an event:
    the anonymous session is refused, alice resolves the event. *)
Lemma resolving_requires_a_session_witness :
  let E := Sample.E (1 # 2) Sample.always in
  let w1 := snd (auth_login (Sample.post [("username", "eve"); ("password", "x")])
                   E Sample.w0) in
  let w2 := set_session (Session.mk (VInt 1) (VText "user") (VText "alice")
                           (Some "user") (Some 0)) w1 in
  let req := mkRequest [] "10.0.0.5" 1 in
  (fst (api_security_resolve req E w1) = Ok (error_json 401 "Unauthorized")
   /\ map SecurityEvent.resolved (rows (security_events (snd (api_security_resolve req E w1))))
      = [0])
  /\ map SecurityEvent.resolved_by
       (rows (security_events (snd (api_security_resolve req E w2))))
     = [VText "alice"]
  /\ fst (api_security_resolve req (Sample.E (1 # 2) Sample.never) w2)
     = Ok (error_json 500 "Failed to resolve security event").
Proof.
  cbv zeta.
  set (E := Sample.E (1 # 2) Sample.always).
  set (w1 := snd (auth_login (Sample.post [("username", "eve"); ("password", "x")])
                    E Sample.w0)).
  set (w2 := set_session (Session.mk (VInt 1) (VText "user") (VText "alice")
                            (Some "user") (Some 0)) w1).
  pose proof (resolving_requires_a_session E w1 (mkRequest [] "10.0.0.5" 1)) as T1.
  pose proof (resolving_requires_a_session E w2 (mkRequest [] "10.0.0.5" 1)) as T2.
  pose proof (resolving_requires_a_session (Sample.E (1 # 2) Sample.never) w2
                (mkRequest [] "10.0.0.5" 1)) as T3.
  cbv zeta in T1, T2, T3.
  destruct T1 as [T1 _]. destruct T2 as (_ & T2 & _). destruct T3 as (_ & _ & T3).
  destruct (T1 eq_refl) as [H1 H1']. destruct (T2 eq_refl eq_refl) as [_ H2].
  destruct (T3 eq_refl eq_refl) as [H3 _].
  split; [split; [exact H1|rewrite H1'; reflexivity]|].
  split; [rewrite H2; reflexivity|exact H3].
Defined.


(** ** The two account databases *)

Ltac run_db :=
  unfold insert_account, statement, bind, get, put, ret, throw, ask, try_catch,
    bcrypt_hashSync, set_accounts, accounts, other_kind_untouched;
  cbv beta iota zeta.

Ltac split_matches :=
  repeat match goal with
         | |- context [match ?x with _ => _ end] =>
             match type of x with
             | bool => destruct x
             | option _ => destruct x
             | list _ => destruct x
             | sqlval => destruct x
             end
         end.

(** X9.  The user and the admin accounts live apart: an operation on the
    accounts or the activity log of one user type leaves the accounts and
    the activity log of the other kind as they were, whether it succeeds or
    fails. *)
Theorem account_kinds_are_isolated (E : env) (w : world) (userType : string)
  (fullname email username password : string) (role : option string)
  (userId : Z) (updates : list (string * sqlval)) (lu lv li : sqlval)
  (action : string) :
  other_kind_untouched userType w
    (snd (createUser fullname email username role password userType E w))
  /\ other_kind_untouched userType w
       (snd (authenticateUser username password userType E w))
  /\ other_kind_untouched userType w
       (snd (updateUser userId updates userType E w))
  /\ other_kind_untouched userType w (snd (deleteUser userId userType E w))
  /\ other_kind_untouched userType w
       (snd (logActivity lu lv action li userType E w))
  /\ other_kind_untouched userType w (snd (clearActivityLogs userType E w)).
Proof.
  repeat split.
  - unfold createUser. run_db.
    destruct (is_admin userType); simpl; split_matches; simpl; split; reflexivity.
  - unfold authenticateUser. run_db.
    destruct (is_admin userType); simpl; split_matches; simpl; split; reflexivity.
  - unfold updateUser. run_db.
    destruct (is_admin userType); simpl; split_matches; simpl; split; reflexivity.
  - unfold deleteUser. run_db.
    destruct (is_admin userType); simpl; split_matches; simpl; split; reflexivity.
  - unfold logActivity. run_db.
    destruct (is_admin userType); simpl; split_matches; simpl; split; reflexivity.
  - unfold clearActivityLogs. run_db.
    destruct (is_admin userType); simpl; split_matches; simpl; split; reflexivity.
Qed.

(** ** The [UNIQUE] columns under every writer *)

(** What [deleteUser] leaves in the table. *)
Lemma deleteUser_run (E : env) (w : world) (userId : Z)
  (userType : string) :
  if db_ok E (statements w)
  then rows (accounts userType (snd (deleteUser userId userType E w)))
       = filter (fun r => negb (Account.id r =? userId))
           (rows (accounts userType w))
  else accounts userType (snd (deleteUser userId userType E w))
       = accounts userType w.
Proof.
  unfold deleteUser, statement, bind, get, put, ret.
  cbv beta iota zeta.
  destruct (db_ok E (statements w)); cbv beta iota zeta; simpl snd.
  - rewrite accounts_set_accounts, accounts_set_statements. reflexivity.
  - apply accounts_set_statements.
Qed.

Section UniqueColumn.

Variable col : Account.t -> sqlval.

(** The constraints of the table cover the column: it is [NOT NULL] and
    [UNIQUE]. *)
Hypothesis constrained :
  forall admin r others,
    constraints_ok admin r others = true ->
    not_null (col r) = true /\ unique_among col (col r) others = true.

Lemma update_rows_keeps_unique (admin : bool) (userId : Z)
  (updates : list (string * sqlval)) (after : list Account.t) :
  forall before res,
    unique_column col (rev before ++ after) ->
    update_rows admin userId updates before after = Some res ->
    unique_column col res.
Proof.
  unfold unique_column.
  induction after as [|r rest IH]; intros before res Hu H; simpl in H.
  - injection H as <-. rewrite app_nil_r in Hu. exact Hu.
  - destruct (Account.id r =? userId).
    + destruct (apply_updates updates r) as [r'|]; [|discriminate].
      destruct (constraints_ok admin r' (rev before ++ rest)) eqn:Hc; [|discriminate].
      apply (IH (r' :: before) res); [|exact H].
      destruct (constrained _ _ _ Hc) as [Hnn Hua].
      pose proof (unique_among_fresh col _ _ Hnn Hua) as Hfresh.
      rewrite map_app in Hu. simpl in Hu. apply NoDup_remove_1 in Hu.
      rewrite <- map_app in Hu.
      simpl. rewrite <- app_assoc. simpl.
      apply (Permutation_NoDup (l := map col (r' :: rev before ++ rest))).
      * simpl. rewrite !map_app. simpl. apply Permutation_middle.
      * simpl. constructor; assumption.
    + apply (IH (r :: before) res); [|exact H].
      simpl. rewrite <- app_assoc. exact Hu.
Qed.

Lemma filter_keeps_unique (f : Account.t -> bool) (l : list Account.t) :
  unique_column col l -> unique_column col (filter f l).
Proof.
  unfold unique_column. induction l as [|r l IH]; intro H; simpl; [constructor|].
  inversion H as [|? ? Hnot Hl]; subst.
  destruct (f r); [|apply IH; exact Hl].
  simpl. constructor; [|apply IH; exact Hl].
  intro Hin. apply Hnot. apply in_map_iff in Hin.
  destruct Hin as (x & Hx & Hin). apply filter_In in Hin.
  apply in_map_iff. exists x. tauto.
Qed.

Lemma insert_keeps_unique (E : env) (w : world) (userType : string)
  (mk_row : Z -> Account.t) :
  unique_column col (rows (accounts userType w)) ->
  unique_column col
    (rows (accounts userType (snd (insert_account userType mk_row E w)))).
Proof.
  intro Hu.
  pose proof (insert_account_rows E w userType mk_row) as R. cbv zeta in R.
  destruct (fst (insert_account userType mk_row E w)) as [id|e].
  - destruct R as (_ & -> & Hc). destruct (constrained _ _ _ Hc) as [Hnn Hua].
    unfold unique_column. rewrite map_app. simpl.
    apply NoDup_snoc; [exact Hu|]. apply unique_among_fresh; assumption.
  - rewrite R. exact Hu.
Qed.

Lemma writers_keep_unique (E : env) (w : world) (userType : string)
  (fullname email username password : string) (role : option string)
  (a_role department govId registrationId : string) (status : option string)
  (isActive : bool) (userId : Z) (updates : list (string * sqlval)) :
  unique_column col (rows (accounts userType w)) ->
  unique_column col
    (rows (accounts userType
             (snd (createUser fullname email username role password userType E w))))
  /\ unique_column col
       (rows (accounts userType (snd (updateUser userId updates userType E w))))
  /\ unique_column col
       (rows (accounts userType (snd (deleteUser userId userType E w))))
  /\ (is_admin userType = true ->
      unique_column col
        (rows (accounts userType
                 (snd (createAdmin fullname email username a_role password
                         department govId registrationId status isActive E w))))).
Proof.
  intro Hu. split; [|split; [|split]].
  - unfold createUser, bcrypt_hashSync, bind, ask. cbv beta iota zeta.
    apply insert_keeps_unique. rewrite accounts_set_hashes. exact Hu.
  - pose proof (updateUser_run E w userId updates userType) as R. cbv zeta in R.
    destruct (fst (updateUser userId updates userType E w)) eqn:Hf.
    + unfold updateUser, statement, bind, get, put, ret, throw in *.
      cbv beta iota zeta in *.
      destruct (db_ok E (statements w)); [|discriminate].
      cbv beta iota zeta in *. rewrite ?accounts_set_statements in *.
      destruct updates as [|kv updates]; [discriminate|].
      destruct (forallb (fun kv0 => is_column (is_admin userType) (fst kv0))
                  (kv :: updates)); [|discriminate].
      destruct (update_rows (is_admin userType) userId (kv :: updates) []
                  (rows (accounts userType w))) as [rows'|] eqn:Hup;
        [|discriminate].
      simpl snd. rewrite accounts_set_accounts. simpl.
      eapply (update_rows_keeps_unique _ _ _ _ [] rows'); [|exact Hup]. exact Hu.
    + rewrite R. exact Hu.
  - pose proof (deleteUser_run E w userId userType) as R.
    destruct (db_ok E (statements w)).
    + rewrite R. apply filter_keeps_unique. exact Hu.
    + rewrite R. exact Hu.
  - intro Hadm. unfold createAdmin, bcrypt_hashSync, bind, ask. cbv beta iota zeta.
    assert (Hacc : forall x, accounts userType x = accounts "admin" x).
    { intro x. unfold accounts. rewrite Hadm. reflexivity. }
    rewrite Hacc. apply insert_keeps_unique.
    rewrite accounts_set_hashes, <- Hacc. exact Hu.
Qed.

End UniqueColumn.

Lemma username_constrained (admin : bool) (r : Account.t) (others : list Account.t) :
  constraints_ok admin r others = true ->
  not_null (Account.username r) = true
  /\ unique_among Account.username (Account.username r) others = true.
Proof.
  unfold constraints_ok, not_null_ok, unique_ok. intro H.
  repeat match goal with
         | H : _ && _ = true |- _ =>
             apply andb_true_iff in H; let H' := fresh in destruct H as [H H']
         end.
  split; assumption.
Qed.

Lemma email_constrained (admin : bool) (r : Account.t) (others : list Account.t) :
  constraints_ok admin r others = true ->
  not_null (Account.email r) = true
  /\ unique_among Account.email (Account.email r) others = true.
Proof.
  unfold constraints_ok, not_null_ok, unique_ok. intro H.
  repeat match goal with
         | H : _ && _ = true |- _ =>
             apply andb_true_iff in H; let H' := fresh in destruct H as [H H']
         end.
  split; assumption.
Qed.

(** X10.  The user names and the e-mail addresses of an account table stay
    without duplicate under every operation of the database module that
    writes the table -- [createUser], [updateUser], [deleteUser] and, for the
    admins, [createAdmin] -- whether the operation succeeds or is rejected. *)
Theorem unique_names_and_emails_are_kept (E : env) (w : world) (userType : string)
  (fullname email username password : string) (role : option string)
  (a_role department govId registrationId : string) (status : option string)
  (isActive : bool) (userId : Z) (updates : list (string * sqlval)) :
  let ok (x : world) :=
    unique_column Account.username (rows (accounts userType x))
    /\ unique_column Account.email (rows (accounts userType x)) in
  ok w ->
  ok (snd (createUser fullname email username role password userType E w))
  /\ ok (snd (updateUser userId updates userType E w))
  /\ ok (snd (deleteUser userId userType E w))
  /\ (is_admin userType = true ->
      ok (snd (createAdmin fullname email username a_role password department
                 govId registrationId status isActive E w))).
Proof.
  cbv zeta. intros [Hu He].
  destruct (writers_keep_unique Account.username username_constrained E w userType
              fullname email username password role a_role department govId
              registrationId status isActive userId updates Hu)
    as (U1 & U2 & U3 & U4).
  destruct (writers_keep_unique Account.email email_constrained E w userType
              fullname email username password role a_role department govId
              registrationId status isActive userId updates He)
    as (E1 & E2 & E3 & E4).
  repeat split; auto.
Qed.

(** The theorem on the sample world: a second alice is refused, and an
    admin taking the e-mail address of another is refused. *)
Lemma unique_names_and_emails_are_kept_witness :
  let E := Sample.E (1 # 2) Sample.always in
  let w1 := snd (createUser "Alice B" "alice2@example.org" "alice" None
                   "another pass" "user" E Sample.w0) in
  let a1 := snd (createAdmin "Dan" "dan@example.org" "dan" "admin" "12345678"
                   "IT" "ZZ99YY88XX77" "REG-2" None false E Sample.w0) in
  let a2 := snd (updateUser 3 [("email", VText "bob@example.org")] "admin" E a1) in
  (unique_column Account.username (rows (users Sample.w0))
   /\ unique_column Account.username (rows (users w1)))
  /\ (unique_column Account.email (rows (admins a1))
      /\ unique_column Account.email (rows (admins a2))).
Proof.
  cbv zeta.
  assert (Hu : unique_column Account.username (rows (accounts "user" Sample.w0))
               /\ unique_column Account.email (rows (accounts "user" Sample.w0))).
  { split; repeat constructor; simpl; tauto. }
  assert (Ha : unique_column Account.username (rows (accounts "admin" Sample.w0))
               /\ unique_column Account.email (rows (accounts "admin" Sample.w0))).
  { split; repeat constructor; simpl; tauto. }
  destruct (unique_names_and_emails_are_kept (Sample.E (1 # 2) Sample.always)
              Sample.w0 "user" "Alice B" "alice2@example.org" "alice" "another pass"
              None "admin" "IT" "ZZ99YY88XX77" "REG-2" None false 0 [] Hu)
    as ((U1 & _) & _).
  destruct (unique_names_and_emails_are_kept (Sample.E (1 # 2) Sample.always)
              Sample.w0 "admin" "Dan" "dan@example.org" "dan" "12345678"
              None "admin" "IT" "ZZ99YY88XX77" "REG-2" None false 0 [] Ha)
    as (_ & _ & _ & A4).
  specialize (A4 eq_refl).
  destruct (unique_names_and_emails_are_kept (Sample.E (1 # 2) Sample.always)
              _ "admin" "Dan" "dan@example.org" "dan" "12345678"
              None "admin" "IT" "ZZ99YY88XX77" "REG-2" None false 3
              [("email", VText "bob@example.org")] A4)
    as (_ & (_ & A2) & _).
  split; [split; [exact (proj1 Hu)|exact U1]|].
  split; [exact (proj2 A4)|exact A2].
Defined.

(** ** From creation to login, and back *)

Lemma find_snoc {A : Type} (f : A -> bool) (l : list A) (x : A) :
  (forall y, In y l -> f y = false) -> f x = true ->
  find f (l ++ [x]) = Some x.
Proof.
  intros Hl Hx. induction l as [|y l IH]; simpl.
  - rewrite Hx. reflexivity.
  - rewrite (Hl y (or_introl eq_refl)). apply IH.
    intros z Hz. apply Hl. right. exact Hz.
Qed.

Lemma unique_among_no_candidate (username : string) (userType : string)
  (others : list Account.t) :
  unique_among Account.username (VText username) others = true ->
  forall y, In y others -> login_candidate userType username y = false.
Proof.
  intros Hu y Hy. simpl in Hu. rewrite forallb_forall in Hu.
  specialize (Hu y Hy). apply negb_true_iff in Hu.
  unfold login_candidate. rewrite Hu. reflexivity.
Qed.

(** X11.  What [createUser] stores, [authenticateUser] accepts: with a
    bcrypt whose [compare] accepts the hashes it makes, and the next
    [SELECT] succeeding, a user just created logs in with the same user name
    and password and gets the row with the id that [createUser] returned. *)
Theorem created_user_authenticates (E : env) (w : world)
  (fullname email username password userType : string) (role : option string)
  (id : Z) :
  let out := createUser fullname email username role password userType E w in
  (forall p r n, bcrypt_compare E p (bcrypt_hash E p r n) = true) ->
  fst out = Ok id ->
  db_ok E (statements (snd out)) = true ->
  exists row,
    fst (authenticateUser username password userType E (snd out)) = Ok (Some row)
    /\ Account.id row = id
    /\ Account.username row = VText username
    /\ Account.is_active row = VInt 1.
Proof.
  cbv zeta. unfold createUser, bcrypt_hashSync, bind, ask. cbv beta iota zeta.
  match goal with |- context [insert_account userType ?mk E ?w1] =>
    set (mk_row := mk); set (wh := w1);
    pose proof (insert_account_rows E wh userType mk_row) as R end.
  cbv zeta in R. intros Hcmp Hok Hdb.
  rewrite Hok in R. destruct R as (Hid & Hrows & Hc).
  apply username_constrained in Hc. destruct Hc as [_ Hua].
  exists (mk_row id).
  rewrite (authenticateUser_accepts E _ username password userType (mk_row id) Hdb).
  - repeat split; reflexivity.
  - rewrite Hrows. apply find_snoc.
    + apply unique_among_no_candidate. exact Hua.
    + unfold login_candidate, mk_row. simpl. rewrite String.eqb_refl. reflexivity.
  - unfold credentials_match, login_candidate, mk_row. simpl.
    rewrite String.eqb_refl. simpl. apply Hcmp.
Qed.

(** The theorem on the sample world: carol registers and logs in. *)
Lemma created_user_authenticates_witness :
  let E := Sample2.E (1 # 2) Sample.always in
  let out := createUser "Carol" "carol@example.org" "carol" (Some "viewer")
               "open sesame" "user" E Sample.w0 in
  (forall p r n, bcrypt_compare E p (bcrypt_hash E p r n) = true)
  /\ fst out = Ok 2
  /\ exists row,
       fst (authenticateUser "carol" "open sesame" "user" E (snd out)) = Ok (Some row)
       /\ Account.id row = 2.
Proof.
  cbv zeta.
  assert (Hcmp : forall p r n,
             bcrypt_compare (Sample2.E (1 # 2) Sample.always) p
               (bcrypt_hash (Sample2.E (1 # 2) Sample.always) p r n) = true).
  { intros p r n. simpl. unfold Sample2.compare, Sample2.hash.
    apply String.eqb_refl. }
  split; [exact Hcmp|]. split; [reflexivity|].
  destruct (created_user_authenticates (Sample2.E (1 # 2) Sample.always) Sample.w0
              "Carol" "carol@example.org" "carol" "open sesame" "user"
              (Some "viewer") 2 Hcmp eq_refl eq_refl)
    as (row & Hr & Hid & _).
  exists row. split; assumption.
Defined.

(** [authenticateUser] only returns a row of the table that the [WHERE]
    clause selects and whose hash accepts the password. *)
Lemma authenticateUser_sound (E : env) (w : world)
  (username password userType : string) (row : Account.t) :
  fst (authenticateUser username password userType E w) = Ok (Some row) ->
  In row (rows (accounts userType w))
  /\ credentials_match E userType username password row = true.
Proof.
  unfold authenticateUser, bind, statement, get.
  destruct (db_ok E (statements w)); [|discriminate].
  cbv beta iota zeta. rewrite accounts_set_statements.
  destruct (find (login_candidate userType username) (rows (accounts userType w)))
    as [r|] eqn:Hfind; [|discriminate].
  apply find_some in Hfind. destruct Hfind as [Hin Hcand].
  unfold ask. cbv beta iota zeta. unfold credentials_match.
  destruct (Account.password r) as [|n|h] eqn:Hpw; try discriminate.
  destruct (bcrypt_compare E password h) eqn:Hcmp; [|discriminate].
  unfold try_catch, statement, bind, get, put, ret. cbv beta iota zeta.
  simpl statements.
  destruct (db_ok E (S (statements w))); simpl; intro H; injection H as <-;
    rewrite Hcand, Hpw, Hcmp; (split; [exact Hin|reflexivity]).
Qed.

(** X12.  An account of the user kind that was deactivated, and an account
    of either kind that was deleted, cannot authenticate any more: after a
    successful [updateUser] of [is_active] to 0, or after a [deleteUser]
    whose statement succeeded, no user name and password make
    [authenticateUser] return a row with that id. *)
Theorem deactivated_or_deleted_cannot_authenticate (E E2 : env) (w : world)
  (userId : Z) (userType username password : string) (row : Account.t) :
  (is_admin userType = false ->
   (exists changes,
      fst (updateUser userId [("is_active", VInt 0)] userType E w) = Ok changes) ->
   fst (authenticateUser username password userType E2
          (snd (updateUser userId [("is_active", VInt 0)] userType E w)))
   = Ok (Some row) ->
   Account.id row <> userId)
  /\ (db_ok E (statements w) = true ->
      fst (authenticateUser username password userType E2
             (snd (deleteUser userId userType E w)))
      = Ok (Some row) ->
      Account.id row <> userId).
Proof.
  split.
  - intros Hadm [changes Hok] Hauth.
    apply authenticateUser_sound in Hauth. destruct Hauth as [Hin Hcred].
    pose proof (updateUser_run E w userId [("is_active", VInt 0)] userType) as R.
    cbv zeta in R. rewrite Hok in R. destruct R as (HF & _).
    intro Hid.
    assert (Hact : Account.is_active row = VInt 0).
    { clear Hcred. induction HF as [|r r' l l' Hrr HF IH]; [contradiction|].
      destruct Hin as [<-|Hin]; [|exact (IH Hin)].
      destruct Hrr as (Hother & Hsame & _).
      destruct (Z.eq_dec (Account.id r) userId) as [Heq|Hne].
      - specialize (Hsame Heq). destruct r. simpl in Hsame.
        injection Hsame as <-. reflexivity.
      - rewrite (Hother Hne) in Hid. contradiction. }
    unfold credentials_match, login_candidate in Hcred.
    rewrite Hact, Hadm in Hcred. simpl in Hcred.
    rewrite andb_false_r in Hcred. discriminate.
  - intros Hdb Hauth.
    apply authenticateUser_sound in Hauth. destruct Hauth as [Hin _].
    pose proof (deleteUser_run E w userId userType) as R. rewrite Hdb in R.
    rewrite R in Hin. apply filter_In in Hin. destruct Hin as [_ Hne].
    apply negb_true_iff in Hne. apply Z.eqb_neq in Hne. exact Hne.
Qed.

(** The theorem on the sample world: alice, deactivated or deleted, is
    answered 401. *)
Lemma deactivated_or_deleted_cannot_authenticate_witness :
  let E := Sample.E (1 # 2) Sample.always in
  let off := snd (updateUser 1 [("is_active", VInt 0)] "user" E Sample.w0) in
  let gone := snd (deleteUser 1 "user" E Sample.w0) in
  let req := Sample.post [("username", "alice"); ("password", "correct horse")] in
  (forall row,
     fst (authenticateUser "alice" "correct horse" "user" E off) = Ok (Some row) ->
     Account.id row <> 1)
  /\ (forall row,
        fst (authenticateUser "alice" "correct horse" "user" E gone) = Ok (Some row) ->
        Account.id row <> 1)
  /\ fst (auth_login req E off) = Ok (error_json 401 "Invalid credentials")
  /\ fst (auth_login req E gone) = Ok (error_json 401 "Invalid credentials").
Proof.
  cbv zeta. split; [|split; [|split; reflexivity]].
  - intros row.
    apply (proj1 (deactivated_or_deleted_cannot_authenticate
                    (Sample.E (1 # 2) Sample.always) (Sample.E (1 # 2) Sample.always)
                    Sample.w0 1 "user" "alice" "correct horse" row));
      [reflexivity|eexists; reflexivity].
  - intros row.
    apply (proj2 (deactivated_or_deleted_cannot_authenticate
                    (Sample.E (1 # 2) Sample.always) (Sample.E (1 # 2) Sample.always)
                    Sample.w0 1 "user" "alice" "correct horse" row)).
    reflexivity.
Defined.

(** ** The list of the users *)

Lemma insert_by_perm {A : Type} (leb : A -> A -> bool) (x : A) (l : list A) :
  Permutation (insert_by leb x l) (x :: l).
Proof.
  induction l as [|y l IH]; simpl; [reflexivity|].
  destruct (leb x y); [reflexivity|].
  rewrite IH. apply perm_swap.
Qed.

Lemma order_by_perm {A : Type} (leb : A -> A -> bool) (l : list A) :
  Permutation (order_by leb l) l.
Proof.
  induction l as [|x l IH]; simpl; [reflexivity|].
  rewrite insert_by_perm. constructor. exact IH.
Qed.

(** X13.  The list of the users never carries a password.  When its
    [SELECT] succeeds, [GET /api/users] answers 200 with one object for each
    row of the table of the user type, each with exactly the fields [id],
    [fullname], [email], [username], [role], [created_at], [is_active] and
    [last_login]; when it fails the answer is 500. *)
Theorem user_list_omits_passwords (E : env) (w : world) (userType : option string)
  (req : request) :
  let table := rows (accounts (or_default userType "user") w) in
  if db_ok E (statements w) then
    exists l,
      fst (api_users userType req E w) = Ok (mkResponse 200 (Json (JArr l)))
      /\ Permutation l (map user_summary table)
      /\ Forall (fun j =>
                   exists fields,
                     j = JObj fields
                     /\ map fst fields
                        = ["id"; "fullname"; "email"; "username"; "role";
                           "created_at"; "is_active"; "last_login"]%string
                     /\ assoc "password" fields = None) l
  else fst (api_users userType req E w)
       = Ok (error_json 500 "Failed to fetch users").
Proof.
  cbv zeta. unfold api_users, getAllUsers, try_catch, statement, bind, get, ret.
  cbv beta iota zeta.
  destruct (db_ok E (statements w)); [|reflexivity].
  cbv beta iota zeta. rewrite accounts_set_statements.
  eexists. split; [reflexivity|]. split.
  - apply Permutation_map. apply order_by_perm.
  - apply Forall_forall. intros j Hj. apply in_map_iff in Hj.
    destruct Hj as (r & <- & _). eexists. split; [reflexivity|].
    split; reflexivity.
Qed.

(** ** More on the tick *)

Lemma updateMetricsFromDistricts_sums (now : string) (x : WifiData.t) :
  WifiData.totalHotspots (updateMetricsFromDistricts now x)
  = sum_total (WifiData.districts x)
  /\ WifiData.activeHotspots (updateMetricsFromDistricts now x)
     = sum_active (WifiData.districts x)
  /\ WifiData.criticalDistricts (updateMetricsFromDistricts now x)
     = Z.of_nat (count_critical (WifiData.districts x)).
Proof.
  unfold updateMetricsFromDistricts, sum_total, sum_active; simpl.
  rewrite !reduce_sum, !Z.add_0_l, filter_critical_count. repeat split.
Qed.

Lemma tick_districts_totals (E : env) (ds : list District.t) :
  forall k, sum_total (tick_districts E k ds) = sum_total ds.
Proof.
  unfold sum_total. induction ds as [|d ds IH]; intro k; simpl; [reflexivity|].
  rewrite IH. reflexivity.
Qed.

Lemma clamped_sums (ds : list District.t) :
  Forall clamped ds ->
  Forall (fun d => 0 <= District.total_hotspots d) ds ->
  0 <= sum_active ds <= sum_total ds.
Proof.
  unfold sum_active, sum_total.
  induction ds as [|d ds IH]; intros Hc Ht; simpl; [lia|].
  inversion Hc as [|? ? [Ha _] Hc']; subst.
  inversion Ht as [|? ? Hd Ht']; subst.
  specialize (IH Hc' Ht'). lia.
Qed.

Lemma tick_districts_total_sign (E : env) (ds : list District.t) :
  forall k,
    Forall (fun d => 0 <= District.total_hotspots d) ds ->
    Forall (fun d => 0 <= District.total_hotspots d) (tick_districts E k ds).
Proof.
  induction ds as [|d ds IH]; intros k H; simpl; [constructor|].
  inversion H; subst. constructor; [assumption|apply IH; assumption].
Qed.

Lemma recalculate_save_broadcast_metrics (E : env) (w : world) :
  db_ok E (statements w) = true ->
  let x := updateMetricsFromDistricts (now E) (wifiData w) in
  wifi_metrics (snd (recalculate_save_broadcast E w))
  = mkTable
      (rows (wifi_metrics w)
       ++ [Metrics.mk (seq (wifi_metrics w) + 1) (WifiData.totalHotspots x)
             (WifiData.activeHotspots x) (WifiData.utilization x)
             (WifiData.criticalDistricts x) (current_timestamp E)])
      (seq (wifi_metrics w) + 1).
Proof.
  intro Hdb.
  unfold recalculate_save_broadcast, saveMetrics, statement, bind, ask, get,
    put, modify, ret. cbv beta iota zeta. simpl statements. rewrite Hdb.
  cbv beta iota zeta. rewrite broadcastUpdate_run. reflexivity.
Qed.

(** One tick with the database up, in full: the store after the tick is
    recalculated from the ticked districts and the metrics row repeats
    it. *)
Lemma simulateRealTimeData_up_metrics (E : env) (w : world) :
  database_up E ->
  let w' := snd (simulateRealTimeData E w) in
  let x' := wifiData w' in
  let ds' := tick_districts E (3 + draws w) (WifiData.districts (wifiData w)) in
  WifiData.districts x' = ds'
  /\ WifiData.totalHotspots x' = sum_total ds'
  /\ WifiData.activeHotspots x' = sum_active ds'
  /\ WifiData.criticalDistricts x' = Z.of_nat (count_critical ds')
  /\ wifi_metrics w'
     = mkTable
         (rows (wifi_metrics w)
          ++ [Metrics.mk (seq (wifi_metrics w) + 1) (WifiData.totalHotspots x')
                (WifiData.activeHotspots x') (WifiData.utilization x')
                (WifiData.criticalDistricts x') (current_timestamp E)])
         (seq (wifi_metrics w) + 1).
Proof.
  intro Hup. cbv zeta.
  unfold simulateRealTimeData, try_catch, bind.
  destruct (update_main_metrics_run E w) as (w3 & -> & Hds & Hdr & _ & _ & _ & Hm3).
  unfold get. cbv beta iota zeta.
  destruct (for_of_districts_ok E Hup (WifiData.districts (wifiData w3)) [] w3 eq_refl)
    as (wl & Hrun & Hd & _ & _ & _ & _ & _ & Hml).
  simpl in Hrun. rewrite Hrun. simpl in Hd. rewrite Hds, Hdr in Hd.
  pose proof (recalculate_save_broadcast_metrics E wl (Hup _)) as Hmet.
  destruct (recalculate_save_broadcast_run E wl) as (w' & Hw' & Hx & _ & _ & Hout).
  rewrite (Hup (statements wl)) in Hout. destruct Hout as [Hok _].
  destruct (recalculate_save_broadcast E wl) as [r' w''].
  simpl in Hw', Hok, Hmet. subst w'' r'. cbv beta iota. simpl snd.
  destruct (updateMetricsFromDistricts_sums (now E) (wifiData wl)) as (S1 & S2 & S3).
  rewrite Hd in S1, S2, S3.
  rewrite Hx. rewrite updateMetricsFromDistricts_districts.
  repeat split; try assumption.
  rewrite Hmet, Hml, Hm3. reflexivity.
Qed.

(** X14.  After a tick during which the database answers, the aggregates
    of the store are those of its districts: the total is the sum of the
    districts' totals, which the tick never moves (the random step the tick
    first applies to the total is overwritten), the active count is the sum
    of the new active counts and lies between 0 and the total when no
    district has a negative total, and the critical count is the number of
    districts whose new status is critical.  Exactly one row is appended to
    [wifi_metrics], and it carries these aggregates. *)
Theorem tick_recalculates_and_records (E : env) (w : world) :
  database_up E ->
  let ds := WifiData.districts (wifiData w) in
  let w' := snd (simulateRealTimeData E w) in
  let x' := wifiData w' in
  WifiData.totalHotspots x' = sum_total ds
  /\ WifiData.activeHotspots x' = sum_active (WifiData.districts x')
  /\ WifiData.criticalDistricts x'
     = Z.of_nat (count_critical (WifiData.districts x'))
  /\ (Forall (fun d => 0 <= District.total_hotspots d) ds ->
      0 <= WifiData.activeHotspots x' <= WifiData.totalHotspots x')
  /\ exists row,
       rows (wifi_metrics w') = rows (wifi_metrics w) ++ [row]
       /\ Metrics.total_hotspots row = WifiData.totalHotspots x'
       /\ Metrics.active_hotspots row = WifiData.activeHotspots x'
       /\ Metrics.utilization row = WifiData.utilization x'
       /\ Metrics.critical_districts row = WifiData.criticalDistricts x'.
Proof.
  intro Hup. cbv zeta.
  destruct (simulateRealTimeData_up_metrics E w Hup) as (Hd & Ht & Ha & Hc & Hm).
  cbv zeta in Hd, Ht, Ha, Hc, Hm.
  rewrite Hd. split; [rewrite Ht; apply tick_districts_totals|].
  split; [exact Ha|]. split; [exact Hc|]. split.
  - intro Hpos. rewrite Ha, Ht. apply clamped_sums.
    + apply tick_districts_Forall. intros. apply tick_district_clamped.
    + apply tick_districts_total_sign. exact Hpos.
  - eexists. rewrite Hm. simpl. repeat split; reflexivity.
Qed.

Lemma tick_recalculates_and_records_witness :
  let E := Sample.E (1 # 2) Sample.always in
  let w' := snd (simulateRealTimeData E Sample.w0) in
  WifiData.totalHotspots (wifiData w')
  = sum_total (WifiData.districts (wifiData Sample.w0))
  /\ List.length (rows (wifi_metrics w'))
     = S (List.length (rows (wifi_metrics Sample.w0))).
Proof.
  cbv zeta.
  destruct (tick_recalculates_and_records (Sample.E (1 # 2) Sample.always) Sample.w0)
    as (Ht & _ & _ & _ & row & Hrow & _).
  - intro k. reflexivity.
  - split; [exact Ht|]. rewrite Hrow, length_app. simpl. lia.
Defined.

(** ** The array of the districts and the table stay in step *)

Lemma tick_fields_other (d' : District.t) (l : list District.t) :
  ~ In (District.id d') (map District.id l) ->
  map (tick_fields d') (map stored_fields l) = map stored_fields l.
Proof.
  intro Hn. rewrite map_map. apply map_ext_in. intros x Hx.
  unfold tick_fields, stored_fields.
  destruct (District.id x =? District.id d') eqn:He; [|reflexivity].
  apply Z.eqb_eq in He. exfalso. apply Hn. rewrite <- He.
  apply in_map. exact Hx.
Qed.

Lemma tick_fields_array (E : env) (k : nat) (d : District.t)
  (pre rest : list District.t) :
  NoDup (map District.id (pre ++ d :: rest)) ->
  map stored_fields (pre ++ tick_district E k d :: rest)
  = map (tick_fields (tick_district E k d)) (map stored_fields (pre ++ d :: rest)).
Proof.
  intro Hnd. rewrite !map_app in *. simpl in *.
  apply NoDup_remove_2 in Hnd.
  rewrite tick_fields_other, tick_fields_other.
  - f_equal. f_equal. unfold tick_fields, stored_fields. simpl.
    rewrite Z.eqb_refl. reflexivity.
  - simpl. intro H. apply Hnd. apply in_or_app. right. exact H.
  - simpl. intro H. apply Hnd. apply in_or_app. left. exact H.
Qed.

Lemma tick_fields_table (E : env) (k : nat) (d : District.t)
  (l : list District.t) :
  let d' := tick_district E k d in
  map stored_fields
    (map (fun row : District.t =>
            if District.id row =? District.id d
            then District.mk (District.id row) (District.name row)
                   (District.total_hotspots row) (District.active_hotspots d')
                   (District.utilization d') (District.status d')
                   (current_timestamp E)
            else row) l)
  = map (tick_fields d') (map stored_fields l).
Proof.
  cbv zeta. rewrite !map_map. apply map_ext. intro row.
  unfold tick_fields, stored_fields. simpl.
  destruct (District.id row =? District.id d); reflexivity.
Qed.

(** The loop keeps the two in step, wherever it stops. *)
Lemma for_of_districts_in_step (E : env) (todo : list District.t) :
  forall (pre : list District.t) (w : world),
    WifiData.districts (wifiData w) = pre ++ todo ->
    distinct_ids w ->
    in_step w ->
    let w' := snd (for_of_districts (List.length pre) todo E w) in
    in_step w' /\ distinct_ids w'.
Proof.
  induction todo as [|d todo IH]; intros pre w Hds Hnd Hin; simpl.
  - split; assumption.
  - unfold bind. rewrite simulate_district_run. cbv zeta.
    destruct (db_ok E (statements w)).
    + cbv beta iota.
      match goal with |- context [for_of_districts _ todo E ?w1] =>
        set (w1' := w1) end.
      assert (Hd1 : WifiData.districts (wifiData w1')
                    = (pre ++ [tick_district E (draws w) d]) ++ todo).
      { subst w1'. simpl. rewrite Hds, set_nth_app, <- app_assoc. reflexivity. }
      assert (Hr1 : map stored_fields (rows (districts w1'))
                    = map (tick_fields (tick_district E (draws w) d))
                        (map stored_fields (rows (districts w)))).
      { subst w1'. simpl. apply (tick_fields_table E (draws w) d). }
      unfold distinct_ids, in_step in Hnd, Hin. rewrite Hds in Hnd, Hin.
      specialize (IH _ w1' Hd1).
      replace (List.length (pre ++ [tick_district E (draws w) d]))
        with (S (List.length pre)) in IH by (rewrite length_app; simpl; lia).
      apply IH.
      * unfold distinct_ids. rewrite Hd1, <- app_assoc.
        rewrite map_app in *. exact Hnd.
      * unfold in_step. rewrite Hd1, Hr1, <- app_assoc.
        simpl app. rewrite (tick_fields_array E _ d pre todo Hnd).
        apply Permutation_map. exact Hin.
    + simpl. split; assumption.
Qed.

Lemma recalculate_save_broadcast_districts (E : env) (w : world) :
  let w' := snd (recalculate_save_broadcast E w) in
  districts w' = districts w
  /\ WifiData.districts (wifiData w') = WifiData.districts (wifiData w).
Proof.
  unfold recalculate_save_broadcast, saveMetrics, statement, bind, ask, get,
    put, modify, ret. cbv beta iota zeta. simpl statements.
  destruct (db_ok E (statements w)); cbv beta iota zeta.
  - rewrite broadcastUpdate_run. split; reflexivity.
  - split; reflexivity.
Qed.

Lemma simulateRealTimeData_in_step (E : env) (w : world) :
  distinct_ids w ->
  in_step w ->
  let w' := snd (simulateRealTimeData E w) in
  in_step w' /\ distinct_ids w'.
Proof.
  intros Hnd Hin. cbv zeta.
  unfold simulateRealTimeData, try_catch, bind.
  assert (H3 : in_step (snd (update_main_metrics E w))
               /\ distinct_ids (snd (update_main_metrics E w))
               /\ fst (update_main_metrics E w) = Ok tt).
  { repeat split; assumption. }
  destruct (update_main_metrics E w) as [r3 w3]. simpl in H3.
  destruct H3 as (Hin3 & Hnd3 & ->).
  unfold get. cbv beta iota zeta.
  pose proof (for_of_districts_in_step E (WifiData.districts (wifiData w3)) [] w3
                eq_refl Hnd3 Hin3) as F.
  simpl in F.
  destruct (for_of_districts 0 (WifiData.districts (wifiData w3)) E w3) as [r wl].
  simpl in F. destruct F as [Hinl Hndl].
  destruct r as [[]|e].
  - pose proof (recalculate_save_broadcast_districts E wl) as R. cbv zeta in R.
    destruct (recalculate_save_broadcast E wl) as [r' w'].
    simpl in R. destruct R as [R1 R2].
    assert (in_step w' /\ distinct_ids w') as Hw'.
    { unfold in_step, distinct_ids. rewrite R1, R2. split; assumption. }
    destruct r'; simpl; exact Hw'.
  - simpl. split; assumption.
Qed.

(** X15.  The array of the districts in memory and the table of the
    districts stay in step over a tick, whatever the database does: when the
    ids of the array are distinct and the array and the table hold the same
    districts (id, name, total, active count, utilization and status, in any
    order), they still do after the tick, wherever a failing statement
    stopped it.  The [UPDATE] of a district precedes the assignment to the
    array and a failure skips both. *)
Theorem tick_keeps_array_and_table_in_step (E : env) (w : world) :
  distinct_ids w ->
  in_step w ->
  let w' := snd (simulateRealTimeData E w) in
  in_step w' /\ distinct_ids w'.
Proof. exact (simulateRealTimeData_in_step E w). Qed.

Lemma tick_keeps_array_and_table_in_step_witness :
  let E := Sample.E (1 # 2) (Sample.fails_at 1) in
  in_step (snd (simulateRealTimeData E Sample.w0))
  /\ distinct_ids (snd (simulateRealTimeData E Sample.w0)).
Proof.
  apply (tick_keeps_array_and_table_in_step
           (Sample.E (1 # 2) (Sample.fails_at 1)) Sample.w0).
  - unfold distinct_ids. simpl. repeat constructor; simpl; intuition discriminate.
  - unfold in_step. simpl. reflexivity.
Defined.

(** ** Start-up *)

Section OrderBy.

Variable A : Type.
Variable leb : A -> A -> bool.
Hypothesis leb_total : forall a b, leb a b = true \/ leb b a = true.

Let R (a b : A) : Prop := leb a b = true.

Lemma insert_by_HdRel (a x : A) (l : list A) :
  HdRel R a l -> R a x -> HdRel R a (insert_by leb x l).
Proof.
  intros Hl Hx. destruct l as [|y l]; simpl.
  - constructor. exact Hx.
  - destruct (leb x y); constructor; [exact Hx|].
    inversion Hl; assumption.
Qed.

Lemma insert_by_Sorted (x : A) (l : list A) :
  Sorted R l -> Sorted R (insert_by leb x l).
Proof.
  induction 1 as [|y l Hs IH Hh]; simpl.
  - repeat constructor.
  - destruct (leb x y) eqn:Hxy.
    + constructor; [constructor; assumption|constructor; exact Hxy].
    + constructor; [exact IH|].
      apply insert_by_HdRel; [exact Hh|].
      destruct (leb_total x y) as [H|H]; [congruence|exact H].
Qed.

Lemma order_by_Sorted (l : list A) : Sorted R (order_by leb l).
Proof.
  induction l as [|x l IH]; simpl; [constructor|].
  apply insert_by_Sorted. exact IH.
Qed.

End OrderBy.

Lemma fold_add_perm (l l' : list Z) :
  Permutation l l' -> fold_right Z.add 0 l = fold_right Z.add 0 l'.
Proof. induction 1; simpl; lia. Qed.

Lemma sums_perm (l l' : list District.t) :
  Permutation l l' ->
  sum_total l = sum_total l'
  /\ sum_active l = sum_active l'
  /\ count_critical l = count_critical l'.
Proof.
  intro Hp. unfold sum_total, sum_active, count_critical. repeat split.
  - apply fold_add_perm, Permutation_map, Hp.
  - apply fold_add_perm, Permutation_map, Hp.
  - apply Permutation_count_occ, Permutation_map, Hp.
Qed.

Lemma loadDistrictsFromDB_run (E : env) (w : world) :
  loadDistrictsFromDB E w
  = let w1 := set_statements (S (statements w)) w in
    if db_ok E (statements w)
    then (Ok tt,
          set_wifiData
            (updateMetricsFromDistricts (now E)
               (with_districts (order_by by_name (rows (districts w))) (wifiData w)))
            w1)
    else (Throw (SqliteError "SQLITE_ERROR"), w1).
Proof.
  unfold loadDistrictsFromDB, getAllDistricts, statement, bind, ask, get, put,
    modify, ret. cbv beta iota zeta.
  destruct (db_ok E (statements w)); reflexivity.
Qed.

(** X16.  [loadDistrictsFromDB].  When the query succeeds the array of the
    districts is the table sorted by name: it holds the same rows, each
    once, in ascending order of the names, and the aggregates of the store
    are recalculated from it (total and active are the sums over the rows,
    the critical count is the number of critical rows).  When the query fails
    the promise rejects and the store is left as it was.  The table is not
    written either way. *)
Theorem load_sorts_the_table_into_the_store (E : env) (w : world) :
  let w' := snd (loadDistrictsFromDB E w) in
  districts w' = districts w
  /\ if db_ok E (statements w)
     then fst (loadDistrictsFromDB E w) = Ok tt
          /\ Permutation (WifiData.districts (wifiData w')) (rows (districts w))
          /\ Sorted (fun a b => String.leb (District.name a) (District.name b) = true)
               (WifiData.districts (wifiData w'))
          /\ WifiData.totalHotspots (wifiData w') = sum_total (rows (districts w))
          /\ WifiData.activeHotspots (wifiData w') = sum_active (rows (districts w))
          /\ WifiData.criticalDistricts (wifiData w')
             = Z.of_nat (count_critical (rows (districts w)))
     else (exists e, fst (loadDistrictsFromDB E w) = Throw e)
          /\ wifiData w' = wifiData w.
Proof.
  cbv zeta. rewrite loadDistrictsFromDB_run. cbv zeta.
  destruct (db_ok E (statements w)); (split; [reflexivity|]).
  - simpl fst. simpl snd.
    pose proof (order_by_perm by_name (rows (districts w))) as Hp.
    set (x := with_districts (order_by by_name (rows (districts w))) (wifiData w)).
    destruct (updateMetricsFromDistricts_sums (now E) x) as (S1 & S2 & S3).
    change (wifiData
              (set_wifiData (updateMetricsFromDistricts (now E) x)
                 (set_statements (S (statements w)) w)))
      with (updateMetricsFromDistricts (now E) x).
    rewrite updateMetricsFromDistricts_districts, S1, S2, S3.
    change (WifiData.districts x) with (order_by by_name (rows (districts w))).
    split; [reflexivity|]. split; [exact Hp|]. split.
    + apply (order_by_Sorted District.t by_name).
      intros a b. apply String.leb_total.
    + destruct (sums_perm _ _ Hp) as (P1 & P2 & P3).
      rewrite P1, P2, P3. repeat split.
  - split; [eexists; reflexivity|reflexivity].
Qed.

Lemma ticks_in_step (E : env) (n : nat) :
  forall w,
    distinct_ids w -> in_step w ->
    fst (ticks n E w) = Ok tt
    /\ in_step (snd (ticks n E w))
    /\ distinct_ids (snd (ticks n E w)).
Proof.
  induction n as [|n IH]; intros w Hnd Hin; simpl.
  - repeat split; assumption.
  - unfold bind.
    destruct (simulateRealTimeData_frame E w) as (Hok & _).
    destruct (simulateRealTimeData_in_step E w Hnd Hin) as [Hin1 Hnd1].
    destruct (simulateRealTimeData E w) as [r w1]. simpl in Hok, Hin1, Hnd1.
    subst r. apply IH; assumption.
Qed.

(** X17.  Start-up and the interval.  When the first query of
    [loadDistrictsFromDB] fails, [startServer] rejects and no tick runs: no
    draw is taken and nothing is sent.  When it succeeds and the ids of the
    table are distinct, then after any number of ticks, whichever of their
    statements fail, the run has not thrown and the array of the districts
    and the table hold the same districts, with distinct ids. *)
Theorem startup_and_ticks_keep_in_step (E : env) (w : world) (n : nat) :
  NoDup (map District.id (rows (districts w))) ->
  let w' := snd (startServer n E w) in
  if db_ok E (statements w)
  then fst (startServer n E w) = Ok tt /\ in_step w' /\ distinct_ids w'
  else (exists e, fst (startServer n E w) = Throw e)
       /\ draws w' = draws w /\ outbox w' = outbox w
       /\ wifiData w' = wifiData w.
Proof.
  intro Hnd. cbv zeta. unfold startServer, bind.
  rewrite loadDistrictsFromDB_run. cbv zeta.
  destruct (db_ok E (statements w)).
  - apply ticks_in_step.
    + unfold distinct_ids.
      change (NoDup (map District.id (order_by by_name (rows (districts w))))).
      eapply Permutation_NoDup; [|exact Hnd].
      apply Permutation_map, Permutation_sym, order_by_perm.
    + unfold in_step.
      change (Permutation
                (map stored_fields (order_by by_name (rows (districts w))))
                (map stored_fields (rows (districts w)))).
      apply Permutation_map, order_by_perm.
  - simpl. split; [eexists; reflexivity|]. repeat split; reflexivity.
Qed.

Lemma startup_and_ticks_keep_in_step_witness :
  let E := Sample.E (1 # 2) (Sample.fails_at 3) in
  let w' := snd (startServer 2 E Sample.w0) in
  fst (startServer 2 E Sample.w0) = Ok tt /\ in_step w' /\ distinct_ids w'.
Proof.
  apply (startup_and_ticks_keep_in_step
           (Sample.E (1 # 2) (Sample.fails_at 3)) Sample.w0 2).
  simpl. repeat constructor; simpl; intuition discriminate.
Defined.

(** ** The sample hotspots *)

Lemma Math_floor_scaled (r : Q) (n : positive) :
  (0 <= r)%Q -> (r < 1)%Q ->
  0 <= Js.Math_floor (r * (Z.pos n # 1)) <= Z.pos n - 1.
Proof.
  intros H0 H1. apply (Math_floor_mul_range r (Z.pos n) H0 H1). reflexivity.
Qed.

Ltac floor_bounds Hr :=
  repeat match goal with
         | |- context [Js.Math_floor (rnd ?E ?k * (Z.pos ?n # 1))] =>
             let H := fresh "Hfl" in
             pose proof (Math_floor_scaled (rnd E k) n
                           (proj1 (Hr k)) (proj2 (Hr k))) as H;
             generalize dependent (Js.Math_floor (rnd E k * (Z.pos n # 1)));
             intros
         end.



(** ** A connection and the next tick *)

Lemma on_connection_frame (E : env) (w : world) (ws : nat) :
  let w' := snd (on_connection ws E w) in
  clients w' = clients w /\ wifiData w' = wifiData w
  /\ fst (on_connection ws E w) = Ok tt.
Proof.
  unfold on_connection, bind.
  destruct (generateSampleHotspots_frame E w) as (h & w1 & -> & _ & Hc & Hx).
  unfold get, send, modify. simpl. repeat split; assumption.
Qed.

(** X19.  A socket that connects is served by the next tick.  The
    connection sends it one ['initial_data'] message carrying the store as
    it is; when the database then answers during the next firing of the
    interval, the broadcast goes to the clients that were open before, in
    their order, and then to the new socket, and all of them receive the same
    message, built from the store after the tick. *)
Theorem connection_then_tick (E : env) (w : world) (ws : nat) :
  database_up E ->
  let w1 := snd (ws_handle (Connection ws) E w) in
  let w2 := snd (ws_handle Timer E w1) in
  exists hotspots,
    outbox w2
    = outbox w
      ++ [(ws, initial_data_message hotspots (wifiData w))]
      ++ map (fun c => (Client.id c, data_update_broadcast (wifiData w2)))
           (open_clients w)
      ++ [(ws, data_update_broadcast (wifiData w2))].
Proof.
  intro Hup. cbv zeta. change (ws_handle Timer) with simulateRealTimeData.
  match goal with |- context [simulateRealTimeData E ?w1] =>
    destruct (simulateRealTimeData_up E w1 Hup) as (_ & _ & Ho) end.
  rewrite Ho. clear Ho.
  unfold ws_handle, bind, modify.
  match goal with |- context [on_connection ws E ?w0] =>
    destruct (on_connection_run E w0 ws) as (h & Hrun);
    destruct (on_connection_frame E w0 ws) as (Hc & _)
  end.
  cbv beta iota zeta in *.
  exists h. rewrite Hrun. unfold open_clients. rewrite Hc. simpl clients.
  simpl outbox. simpl wifiData.
  rewrite filter_app, map_app. simpl. rewrite <- !app_assoc. reflexivity.
Qed.

Lemma connection_then_tick_witness :
  let E := Sample.E (1 # 2) Sample.always in
  let w1 := snd (ws_handle (Connection 11) E Sample.w0) in
  let w2 := snd (ws_handle Timer E w1) in
  map fst (outbox w2) = [11; 7; 9; 11]%nat.
Proof.
  cbv zeta.
  destruct (connection_then_tick (Sample.E (1 # 2) Sample.always) Sample.w0 11)
    as (h & Hout).
  - intro k. reflexivity.
  - cbv zeta in Hout. rewrite Hout. rewrite !map_app, map_map. reflexivity.
Defined.

(** ** Sanitizing *)














(** ** Seeding the districts *)

Lemma seed_district_run (E : env) (w : world) (index : nat) (name : string)
  (completed : nat) :
  seed_district index name completed E w
  = let k := draws w in
    let critical := Js.lt (7 # 10) (rnd E (3 + k)) in
    let status :=
      if critical then "critical"%string
      else if Js.lt (4 # 10) (rnd E (4 + k)) then "warning"%string
           else "normal"%string in
    let row :=
      District.mk (Z.of_nat index + 1) name
        (Js.Math_floor (rnd E k * 2000) + 500)
        (Js.Math_floor (rnd E (1 + k) * 1500) + 300)
        (Js.Math_floor (rnd E (2 + k) * 40) + 40)
        status (current_timestamp E) in
    let w1 :=
      set_statements (S (statements w))
        (set_draws ((if critical then 4 else 5) + k) w) in
    if db_ok E (statements w)
    then (Ok (S completed),
          set_districts (replace_district row (districts w)) w1)
    else (Ok completed, w1).
Proof.
  unfold seed_district, try_catch, statement, Math_random, bind, ask, get,
    put, modify, ret. cbv beta iota zeta. cbn [draws set_draws].
  change (3 + draws w)%nat with (S (S (S (draws w)))).
  destruct (Js.lt (7 # 10) (rnd E (S (S (S (draws w))))));
    cbv beta iota zeta; cbn [statements set_draws];
    destruct (db_ok E (statements w)); reflexivity.
Qed.

Lemma filter_filter {A : Type} (f g : A -> bool) (l : list A) :
  filter f (filter g l) = filter (fun x => g x && f x) l.
Proof.
  induction l as [|x l IH]; simpl; [reflexivity|].
  destruct (g x); simpl; [destruct (f x); simpl; rewrite IH|rewrite IH];
    reflexivity.
Qed.

Lemma seed_district_seeded (E : env) (k index : nat) (name status : string)
  (ts : string) :
  draws_in_range E ->
  known_status status ->
  seeded (District.mk (Z.of_nat index + 1) name
            (Js.Math_floor (rnd E k * 2000) + 500)
            (Js.Math_floor (rnd E (1 + k) * 1500) + 300)
            (Js.Math_floor (rnd E (2 + k) * 40) + 40)
            status ts).
Proof.
  intros Hr Hs. unfold seeded.
  cbn [District.total_hotspots District.active_hotspots District.utilization
       District.status].
  repeat split; try exact Hs; floor_bounds Hr; lia.
Qed.

(** The loop when every statement succeeds. *)
Lemma seed_districts_up (E : env) (names : list string) :
  database_up E -> draws_in_range E -> NoDup names ->
  forall (index completed : nat) (w : world),
    exists new w',
      seed_districts index names completed E w
      = (Ok (completed + List.length names)%nat, w')
      /\ rows (districts w')
         = filter (fun r => negb (reseeded index names r)) (rows (districts w))
           ++ new
      /\ map District.id new = seed_ids index names
      /\ map District.name new = names
      /\ Forall seeded new.
Proof.
  intros Hup Hr. induction names as [|name names IH]; intros Hnd index completed w.
  - exists [], w. simpl. unfold ret. rewrite Nat.add_0_r, app_nil_r.
    repeat split; try constructor.
    unfold reseeded, seed_ids. simpl.
    induction (rows (districts w)) as [|r l IHl]; simpl; [reflexivity|].
    rewrite <- IHl. reflexivity.
  - inversion Hnd as [|? ? Hnotin Hnd']; subst.
    simpl seed_districts. unfold bind. rewrite seed_district_run. cbv zeta.
    rewrite (Hup (statements w)).
    match goal with |- context [replace_district ?row _] => set (row1 := row) end.
    match goal with |- context [seed_districts (S index) names (S completed) E ?w1] =>
      destruct (IH Hnd' (S index) (S completed) w1)
        as (new & w' & Hrun & Hrows & Hids & Hnames & Hseeded);
      set (w1' := w1) in * end.
    exists (row1 :: new), w'. rewrite Hrun.
    split; [f_equal; f_equal; simpl; lia|].
    split; [|split; [|split]].
    + rewrite Hrows. subst w1'. simpl districts. unfold replace_district.
      simpl rows. rewrite filter_app, filter_filter. simpl filter.
      assert (Hkeep : reseeded (S index) names row1 = false).
      { unfold reseeded, seed_ids. apply orb_false_intro.
        - apply not_true_is_false. intro H. apply existsb_exists in H.
          destruct H as (z & Hz & He). apply in_map_iff in Hz.
          destruct Hz as (j & <- & Hj). apply in_seq in Hj.
          apply Z.eqb_eq in He. subst row1. simpl in He. lia.
        - apply not_true_is_false. intro H. apply existsb_exists in H.
          destruct H as (n & Hn & He). apply String.eqb_eq in He.
          subst row1. simpl in He. subst n. contradiction. }
      rewrite Hkeep. simpl. rewrite <- app_assoc. simpl. f_equal.
      apply filter_ext. intro r. unfold reseeded, seed_ids. simpl.
      subst row1. simpl.
      destruct (District.id r =? Z.of_nat index + 1);
        destruct (String.eqb (District.name r) name); simpl;
        try reflexivity.
      all: rewrite ?orb_true_r; try reflexivity.
    + simpl. rewrite Hids. subst row1. reflexivity.
    + simpl. rewrite Hnames. subst row1. reflexivity.
    + constructor; [|exact Hseeded]. subst row1.
      apply seed_district_seeded; [exact Hr|]. unfold known_status.
      destruct (Js.lt (7 # 10) _); [simpl; auto|].
      destruct (Js.lt (4 # 10) _); simpl; auto.
Qed.

(** The loop counts the statements that succeed. *)
Lemma seed_districts_count (E : env) (names : list string) :
  forall (index completed : nat) (w : world),
    exists n w',
      seed_districts index names completed E w = (Ok n, w')
      /\ (completed <= n <= completed + List.length names)%nat
      /\ ((exists k, (k < List.length names)%nat
                     /\ db_ok E (statements w + k) = false) ->
          (n < completed + List.length names)%nat).
Proof.
  induction names as [|name names IH]; intros index completed w.
  - exists completed, w. simpl. split; [reflexivity|]. split; [lia|].
    intros (k & Hk & _). lia.
  - simpl seed_districts. unfold bind. rewrite seed_district_run. cbv zeta.
    destruct (db_ok E (statements w)) eqn:Hdb.
    + match goal with |- context [seed_districts (S index) names (S completed) E ?w1] =>
        destruct (IH (S index) (S completed) w1) as (n & w' & Hrun & Hn & Hf) end.
      exists n, w'. rewrite Hrun. split; [reflexivity|]. simpl List.length.
      split; [lia|]. intros (k & Hk & Hk'). destruct k as [|k].
      * rewrite Nat.add_0_r in Hk'. congruence.
      * assert (n < S completed + List.length names)%nat; [|lia].
        apply Hf. exists k. split; [simpl in Hk; lia|].
        simpl statements. rewrite Nat.add_succ_r in Hk'. exact Hk'.
    + match goal with |- context [seed_districts (S index) names completed E ?w1] =>
        destruct (IH (S index) completed w1) as (n & w' & Hrun & Hn & Hf) end.
      exists n, w'. rewrite Hrun. split; [reflexivity|]. simpl List.length.
      split; [lia|]. intros _. lia.
Qed.

(** X21.  [initializeDistricts].  When every insert succeeds and the draws
    are in [0, 1), the ten districts are written under the ids 1 to 10, in
    place of the rows that held one of these ids or one of the ten names;
    the other rows stay.  A seeded row has a total from 500 to 2499, an
    active count from 300 to 1799 -- which may exceed its total -- a
    utilization from 40 to 79 and one of the three statuses, and the call of
    [initializeSettings] is reached.  When one of the ten inserts fails that
    call is not reached, and the promise of the start-up is left pending. *)
Theorem initializeDistricts_seeds_ten (E : env) (w : world) :
  (database_up E -> draws_in_range E ->
   fst (initializeDistricts E w) = Ok true
   /\ exists new,
        rows (districts (snd (initializeDistricts E w)))
        = filter (fun r => negb (reseeded 0 district_names r)) (rows (districts w))
          ++ new
        /\ map District.id new = [1; 2; 3; 4; 5; 6; 7; 8; 9; 10]
        /\ map District.name new = district_names
        /\ Forall seeded new)
  /\ ((exists k, (k < 10)%nat /\ db_ok E (statements w + k) = false) ->
      fst (initializeDistricts E w) = Ok false).
Proof.
  split.
  - intros Hup Hr. unfold initializeDistricts, bind.
    destruct (seed_districts_up E district_names Hup Hr) with (index := 0%nat)
      (completed := 0%nat) (w := w) as (new & w' & Hrun & Hrows & Hids & Hn & Hs).
    { unfold district_names. repeat constructor; simpl; intuition discriminate. }
    rewrite Hrun. simpl. split; [reflexivity|].
    exists new. repeat split; assumption.
  - intro Hf. unfold initializeDistricts, bind.
    destruct (seed_districts_count E district_names 0 0 w)
      as (n & w' & Hrun & Hn & Hlt).
    rewrite Hrun. simpl. unfold ret. simpl. f_equal. f_equal.
    apply Nat.eqb_neq. specialize (Hlt Hf). simpl in Hlt. lia.
Qed.

Lemma initializeDistricts_seeds_ten_witness :
  fst (initializeDistricts (Sample.E (1 # 2) Sample.always) Sample.w0) = Ok true
  /\ fst (initializeDistricts (Sample.E (1 # 2) (Sample.fails_at 4)) Sample.w0)
     = Ok false.
Proof.
  split.
  - apply (initializeDistricts_seeds_ten (Sample.E (1 # 2) Sample.always) Sample.w0).
    + intro k. reflexivity.
    + intro k. simpl. split; [discriminate|reflexivity].
  - apply (initializeDistricts_seeds_ten (Sample.E (1 # 2) (Sample.fails_at 4))
             Sample.w0).
    exists 4%nat. split; [lia|reflexivity].
Defined.

(** ** The activity logs *)






(** X23.  [GET /api/logs].  The route answers 200 with rows of the log of
    the user type asked for ([user] when none is given), or 500 when the
    query fails; it writes nothing.  The number of rows follows the
    [limit] of the query: a limit that does not parse, and the limit 0, count
    as 100; a negative limit is passed on to SQLite, where it lifts the
    bound, so that the whole log is returned. *)
Theorem api_logs_limit (E : env) (w : world) (limit : option Z)
  (userType : option string) :
  let out := api_logs limit userType E w in
  let kind := or_default userType "user" in
  let t := activity_logs kind w in
  snd out = set_statements (S (statements w)) w
  /\ if db_ok E (statements w)
     then exists logs,
            fst out = Ok (mkResponse 200 (Json (JArr (map (log_json kind) logs))))
            /\ (forall r, In r logs -> In r (rows t))
            /\ List.length logs
               = match limit with
                 | Some n =>
                     if n =? 0 then Nat.min 100 (List.length (rows t))
                     else if n <? 0 then List.length (rows t)
                          else Nat.min (Z.to_nat n) (List.length (rows t))
                 | None => Nat.min 100 (List.length (rows t))
                 end
     else fst out = Ok (error_json 500 "Failed to fetch logs").
Proof.
  cbv zeta. unfold api_logs, getActivityLogs, try_catch, statement, bind, get, ret.
  cbv beta iota zeta.
  destruct (db_ok E (statements w)); cbv beta iota zeta; simpl fst; simpl snd;
    (split; [reflexivity|]); [|reflexivity].
  eexists. split; [reflexivity|].
  set (sorted := order_by _ _).
  assert (Hp : Permutation sorted
                 (rows (activity_logs (or_default userType "user") w))).
  { subst sorted.
    change (activity_logs (or_default userType "user")
              (set_statements (S (statements w)) w))
      with (activity_logs (or_default userType "user") w).
    apply order_by_perm. }
  split.
  - intros r Hin. eapply Permutation_in; [exact Hp|].
    unfold sql_limit in Hin. destruct (limit_or_100 limit <? 0); [exact Hin|].
    rewrite <- (firstn_skipn (Z.to_nat (limit_or_100 limit)) sorted).
    apply in_or_app. left. exact Hin.
  - rewrite <- (Permutation_length Hp).
    unfold sql_limit, limit_or_100.
    destruct limit as [n|]; [|exact (length_firstn 100 sorted)].
    destruct (n =? 0) eqn:H0; [exact (length_firstn 100 sorted)|].
    destruct (n <? 0); [reflexivity|apply length_firstn].
Qed.

(** ** The login of server.js *)


